(** * mindmesh-pathway: the auth screen and the onboarding questionnaire

    A shallow embedding of the two stateful React components of the
    repository, [Auth] and [Onboarding], and proofs about their handlers.

    - JavaScript values that the components store or send are [jsval]s;
      the [answers] object is a finite map from keys to values.
    - Every call a handler makes to its surroundings (the backend client,
      the router, the toast channel, the console, the clock, and React's
      state setters) is a [call]; a handler is a [prog], a tree whose
      nodes are calls and whose continuations consume the answer of the
      call, which is how [await] sequences the source.
    - [run] executes a handler against an [oracle], which answers every
      call, and yields the trace of calls in the order they were issued.
    - A handler reads the state of the render it was created in; the
      state after the handler is that state with the setter calls of the
      trace applied in order ([commit]).
    - An asynchronous handler stops at every call it awaits and goes on
      when the answer arrives; what it has set so far is seen in between,
      and other events can happen there ([run_sync], [resume],
      [Onboarding.async_step]). *)

From Stdlib Require Import ZArith Ascii String List.
From stdpp Require Import base option list strings gmap fin_maps.

Local Open Scope string_scope.
Local Open Scope Z_scope.

(** ** Strings *)

Module JsString.

(** [s.includes(pat)]: [pat] occurs in [s] as a contiguous substring. *)
Fixpoint includes (s pat : string) : bool :=
  String.prefix pat s ||
  match s with
  | EmptyString => false
  | String _ s' => includes s' pat
  end.

Definition lower_ascii (c : ascii) : ascii :=
  let n := N_of_ascii c in
  if ((65 <=? n) && (n <=? 90))%N then ascii_of_N (n + 32) else c.

(** [s.toLowerCase()] on the ASCII letters. The only letters outside ASCII
    that JavaScript lowers to an ASCII letter are U+212A (to k) and U+0130
    (to i followed by U+0307); neither can complete an occurrence of the
    one pattern the source looks for in a lowered string, "already exists". *)
Fixpoint toLowerCase (s : string) : string :=
  match s with
  | EmptyString => EmptyString
  | String c s' => String (lower_ascii c) (toLowerCase s')
  end.

(** [[...s]]: the characters of [s], each as a string of its own (exact for
    ASCII text, where a character is one byte). *)
Fixpoint chars (s : string) : list string :=
  match s with
  | EmptyString => []
  | String c s' => String c EmptyString :: chars s'
  end.

End JsString.

(** ** Values *)

(** The values the components store and send: strings, arrays of strings
    and booleans. A missing property ([undefined]) is [None] at the place
    that reads it. *)
Inductive jsval : Type :=
| JStr (s : string)
| JArr (l : list string)
| JBool (b : bool).

#[global] Instance jsval_eq_dec : EqDecision jsval.
Proof. solve_decision. Defined.

(** JavaScript truthiness: [undefined], the empty string and [false] are
    falsy; every array, the empty one too, is truthy. *)
Definition truthy (v : option jsval) : bool :=
  match v with
  | None => false
  | Some (JStr s) => negb (String.eqb s "")
  | Some (JArr _) => true
  | Some (JBool b) => b
  end.

(** [v || d] *)
Definition js_or (v : option jsval) (d : jsval) : jsval :=
  match v with
  | Some x => if truthy v then x else d
  | None => d
  end.

(** An object literal: its properties in the order they are written. *)
Definition row : Type := list (string * jsval).

(** Errors: what [throw] throws and what the backend client reports. Only
    the [message] is ever read. *)
Record error : Type := Error { message : option string }.

#[global] Instance error_eq_dec : EqDecision error.
Proof. solve_decision. Defined.

(** [new Error(msg)] *)
Definition new_Error (msg : string) : error := Error (Some msg).

(** A [TypeError] raised by the runtime (reading a property of
    [undefined], calling what is not a function). *)
Definition TypeError (msg : string) : error := Error (Some msg).

(** The session user; [uid] is its [id] property. *)
Record user : Type := User { uid : string }.

(** The one variant the source names; a notice without one has [None]. *)
Inductive variant : Type := destructive.

Record toast_args : Type := ToastArgs {
  title : string;
  description : option string;
  variant_ : option variant
}.

(** What the spec calls an informational notice, as opposed to an error
    notice: of the two variants of the notice channel, default and
    destructive, it is not the destructive one. *)
Definition spec_informational (t : toast_args) : Prop :=
  variant_ t ≠ Some destructive.

(** ** Calls and handlers *)

(** [{ data, error }] of a [maybeSingle()] query *)
Record query_result : Type := QueryResult {
  q_data : option row;
  q_error : option error
}.

(** [{ data: { user }, error }] of [auth.signUp] *)
Record signup_result : Type := SignupResult {
  su_user : option user;
  su_error : option error
}.

Inductive call : Type :=
(* React state setters *)
| SetLoading (b : bool)
| SetAnswers (a : gmap string jsval)
| SetCurrentQuestion (i : Z)
(* backend client *)
| SignInWithPassword (email password : string)
| SignUp (email password : string) (username full_name : option string)
| GetUser
| SelectMaybeSingle (table columns col val : string)
| Insert (table : string) (rows : list row)
| Update (table : string) (fields : row) (col val : string)
(* timer and clock *)
| Sleep (ms : Z)
| NowISOString
(* router, notices, console *)
| Navigate (path : string)
| Toast (t : toast_args)
| ConsoleError (label : string) (e : error).

(** What each call gives back to the code that awaits it. *)
Definition resp (c : call) : Type :=
  match c with
  | SignInWithPassword _ _ => option error
  | SignUp _ _ _ _ => signup_result
  | GetUser => option user
  | SelectMaybeSingle _ _ _ _ => query_result
  | Insert _ _ => option error
  | Update _ _ _ _ => option error
  | NowISOString => string
  | _ => unit
  end.

Inductive prog (A : Type) : Type :=
| Ret (a : A)
| Throw (e : error)
| Do (c : call) (k : resp c → prog A).

Arguments Ret {A} a.
Arguments Throw {A} e.
Arguments Do {A} c k.

Fixpoint bind {A B} (p : prog A) (f : A → prog B) : prog B :=
  match p with
  | Ret a => f a
  | Throw e => Throw e
  | Do c k => Do c (λ r, bind (k r) f)
  end.

#[global] Instance prog_ret : MRet prog := @Ret.
#[global] Instance prog_bind : MBind prog := λ A B f p, bind p f.

(** Issue one call and hand back its answer. *)
Definition perform (c : call) : prog (resp c) := Do c Ret.

(** [try { p } catch (error) { h error }] *)
Fixpoint try_catch {A} (p : prog A) (h : error → prog A) : prog A :=
  match p with
  | Ret a => Ret a
  | Throw e => h e
  | Do c k => Do c (λ r, try_catch (k r) h)
  end.

(** [try { p } finally { f }] *)
Fixpoint try_finally {A} (p : prog A) (f : prog unit) : prog A :=
  match p with
  | Ret a => f ;; Ret a
  | Throw e => f ;; Throw e
  | Do c k => Do c (λ r, try_finally (k r) f)
  end.

(** How a handler ends. *)
Inductive outcome (A : Type) : Type :=
| Returned (a : A)
| Thrown (e : error).

Arguments Returned {A} a.
Arguments Thrown {A} e.

(** The surroundings of one handler invocation: an answer for every call.
    No handler of the repository issues the same call twice in one
    invocation, so an answer per call loses nothing. *)
Definition oracle : Type := ∀ c : call, resp c.

Fixpoint run {A} (o : oracle) (p : prog A) : list call * outcome A :=
  match p with
  | Ret a => ([], Returned a)
  | Throw e => ([], Thrown e)
  | Do c k => let '(t, r) := run o (k (o c)) in (c :: t, r)
  end.

Definition trace {A} (o : oracle) (p : prog A) : list call := (run o p).1.

(** *** Awaited calls *)

(** The calls the source awaits: those of the backend client and the
    timer. The handler stops there until the answer arrives. *)
Definition is_awaited (c : call) : bool :=
  match c with
  | SignInWithPassword _ _ | SignUp _ _ _ _ | GetUser
  | SelectMaybeSingle _ _ _ _ | Insert _ _ | Update _ _ _ _ | Sleep _ => true
  | _ => false
  end.

(** A handler stopped at an awaited call: the call it has issued and what
    it does with the answer. *)
Inductive task : Type :=
| Awaiting (c : call) (k : resp c → prog unit).

Inductive progress : Type :=
| Finished (r : outcome unit)
| Suspended (t : task).

(** Run a handler up to the first call it awaits, that call included in
    the trace, or to its end when it awaits none. *)
Fixpoint run_sync (o : oracle) (p : prog unit) : list call * progress :=
  match p with
  | Ret a => ([], Finished (Returned a))
  | Throw e => ([], Finished (Thrown e))
  | Do c k =>
      if is_awaited c then ([c], Suspended (Awaiting c k))
      else let '(t, r) := run_sync o (k (o c)) in (c :: t, r)
  end.

(** The answer of the awaited call arrives: the handler goes on, up to the
    next call it awaits or to its end. *)
Definition resume (o : oracle) (t : task) : list call * progress :=
  match t with
  | Awaiting c k => run_sync o (k (o c))
  end.

(** The tasks a step leaves behind. *)
Definition spawn (pr : progress) : list task :=
  match pr with
  | Suspended t => [t]
  | Finished _ => []
  end.

(** The calls that leave the answers and the question index alone. *)
Definition keeps (c : call) : bool :=
  match c with
  | SetAnswers _ | SetCurrentQuestion _ => false
  | _ => true
  end.

(** A handler that, from here on and whatever it is answered, issues only
    calls that leave the answers and the question index alone. *)
Inductive only_keeps {A : Type} : prog A → Prop :=
| only_keeps_Ret a : only_keeps (Ret a)
| only_keeps_Throw e : only_keeps (Throw e)
| only_keeps_Do c k :
    keeps c = true → (∀ r, only_keeps (k r)) → only_keeps (Do c k).

Definition task_keeps (t : task) : Prop :=
  match t with
  | Awaiting _ k => ∀ r, only_keeps (k r)
  end.

(** The state after a handler: the setter calls of its trace, applied in
    the order they were issued, to the state the handler was created in. *)
Definition commit {S} (apply_call : S → call → S) (st : S) (t : list call) : S :=
  foldl apply_call st t.

Definition is_navigate (c : call) : bool :=
  match c with Navigate _ => true | _ => false end.

Definition is_insert (c : call) : bool :=
  match c with Insert _ _ => true | _ => false end.

Definition is_toast (c : call) : bool :=
  match c with Toast _ => true | _ => false end.

(** The calls that change what the backend stores. *)
Definition is_write (c : call) : bool :=
  match c with
  | SignUp _ _ _ _ | Insert _ _ | Update _ _ _ _ => true
  | _ => false
  end.

(** The calls that are not React state setters. *)
Definition is_external (c : call) : bool :=
  match c with
  | SetLoading _ | SetAnswers _ | SetCurrentQuestion _ => false
  | _ => true
  end.

(** ** Some surroundings *)

(** A backend that reports no user, no data and no error. *)
Definition silent : oracle :=
  λ c,
    match c return resp c with
    | SignInWithPassword _ _ => None
    | SignUp _ _ _ _ => SignupResult None None
    | GetUser => None
    | SelectMaybeSingle _ _ _ _ => QueryResult None None
    | Insert _ _ => None
    | Update _ _ _ _ => None
    | NowISOString => "2026-01-01T00:00:00.000Z"
    | _ => tt
    end.

(** [o], with [u] as the session user. *)
Definition with_user (u : user) (o : oracle) : oracle :=
  λ c, match c return resp c with GetUser => Some u | c => o c end.

(** [o], where [auth.signUp] answers [r]. *)
Definition with_sign_up (r : signup_result) (o : oracle) : oracle :=
  λ c, match c return resp c with SignUp _ _ _ _ => r | c => o c end.

(** [o], where [auth.signInWithPassword] reports [e]. *)
Definition with_sign_in (e : option error) (o : oracle) : oracle :=
  λ c, match c return resp c with SignInWithPassword _ _ => e | c => o c end.

(** [o], where every insert reports [e]. *)
Definition with_insert (e : option error) (o : oracle) : oracle :=
  λ c, match c return resp c with Insert _ _ => e | c => o c end.

(** How many calls of a trace are of the kind [f]. *)
Definition count (f : call → bool) (t : list call) : nat :=
  length (List.filter f t).

(** [r.k]: the property [k] of an object literal. *)
Fixpoint row_get (r : row) (k : string) : option jsval :=
  match r with
  | [] => None
  | (k', v) :: r' => if String.eqb k' k then Some v else row_get r' k
  end.

(** [if (e) throw e] *)
Definition throw_if_error (e : option error) : prog unit :=
  match e with
  | Some e => Throw e
  | None => Ret tt
  end.

(** ** The auth screen *)

Module Auth.

Record form_data : Type := FormData {
  email : string;
  password : string;
  confirmPassword : option string;
  username : option string;
  fullName : option string
}.

(** The test of the inner [catch] of the sign-up flow:
    [error.message?.includes("User already registered") ||
     error.message?.toLowerCase()?.includes("already exists")] *)
Definition already_registered (e : error) : bool :=
  match message e with
  | Some m =>
      JsString.includes m "User already registered"
      || JsString.includes (JsString.toLowerCase m) "already exists"
  | None => false
  end.

(** [error.message || d] *)
Definition message_or (e : error) (d : string) : string :=
  match message e with
  | Some m => if String.eqb m "" then d else m
  | None => d
  end.

Definition account_exists_toast : toast_args :=
  {| title := "Account Exists";
     description := Some "An account with this email already exists. Please sign in instead.";
     variant_ := Some destructive |}.

Definition account_created_toast : toast_args :=
  {| title := "Success";
     description := Some "Account created successfully! Please check your email to verify your account.";
     variant_ := None |}.

Definition error_toast (e : error) : toast_args :=
  {| title := "Error";
     description := Some (message_or e "An error occurred during authentication");
     variant_ := Some destructive |}.

Definition onboarding_status_row (u : user) (created_at : string) : row :=
  [("user_id", JStr (uid u)); ("is_completed", JBool false);
   ("created_at", JStr created_at)].

(** The three backend calls of the component, with their arguments. *)
Definition sign_in_call (formData : form_data) : call :=
  SignInWithPassword (email formData) (password formData).

Definition sign_up_call (formData : form_data) : call :=
  SignUp (email formData) (password formData) (username formData) (fullName formData).

Definition profile_query (u : user) : call :=
  SelectMaybeSingle "profiles" "*" "id" (uid u).

Definition insert_status (u : user) (created_at : string) : call :=
  Insert "onboarding_status" [onboarding_status_row u created_at].

Definition sign_in (formData : form_data) : prog unit :=
  signInError ← perform (sign_in_call formData);
  throw_if_error signInError ;;
  (* After sign in, verify the profile exists *)
  user ← perform GetUser;
  match user with
  | None => Throw (new_Error "No user found after login")
  | Some user =>
      r ← perform (profile_query user);
      match q_error r with
      | Some profileError =>
          perform (ConsoleError "Error fetching profile:" profileError) ;;
          Throw (new_Error "Failed to verify user profile")
      | None =>
          match q_data r with
          | None => Throw (new_Error "Profile not found. Please contact support.")
          | Some _ => perform (Navigate "/dashboard")
          end
      end
  end.

Definition sign_up (formData : form_data) : prog unit :=
  try_catch
    (r ← perform (sign_up_call formData);
     throw_if_error (su_error r) ;;
     match su_user r with
     | Some user =>
         (* Wait for the profile trigger to complete *)
         perform (Sleep 2000) ;;
         (* Create initial onboarding status *)
         created_at ← perform NowISOString;
         onboardingError ← perform (insert_status user created_at);
         match onboardingError with
         | Some onboardingError =>
             perform (ConsoleError "Error creating onboarding status:" onboardingError) ;;
             Throw (new_Error "Failed to initialize onboarding")
         | None =>
             perform (Toast account_created_toast) ;;
             perform (Navigate "/onboarding")
         end
     | None => Ret tt
     end)
    (λ error,
       (* Check if the error is due to user already existing *)
       if already_registered error
       then perform (Toast account_exists_toast)   (* return; *)
       else Throw error).

Definition handleAuth (formData : form_data) (isLogin : bool) : prog unit :=
  perform (SetLoading true) ;;
  try_finally
    (try_catch
       (if isLogin then sign_in formData else sign_up formData)
       (λ error,
          perform (ConsoleError "Auth error:" error) ;;
          perform (Toast (error_toast error))))
    (perform (SetLoading false)).

(** The component's state is its [loading] flag. *)
Definition apply_call (loading : bool) (c : call) : bool :=
  match c with
  | SetLoading b => b
  | _ => loading
  end.

End Auth.

(** ** The onboarding questionnaire *)

Module Onboarding.

Record question_def : Type := Question {
  question : string;
  options : option (list string);
  key : string;
  singleSelect : bool;
  isOptional : bool;
  isText : bool
}.

Definition questions : list question_def :=
  [ {| question := "What are your primary learning goals?";
       options := Some ["Improving skills"; "Preparing for exams";
                        "Exploring a new field"; "Personal growth"];
       key := "learning_goals";
       singleSelect := false; isOptional := false; isText := false |};
    {| question := "Which domain are you most interested in?";
       options := Some ["Technical: Coding"; "Technical: AI/ML";
                        "Technical: Cybersecurity"; "Non-Technical: Marketing";
                        "Non-Technical: Content Writing";
                        "Non-Technical: Management"; "Non-Technical: Design"];
       key := "domain_interests";
       singleSelect := false; isOptional := false; isText := false |};
    {| question := "What is your preferred learning style?";
       options := Some ["Video tutorials"; "Interactive quizzes"; "Reading";
                        "Peer-to-peer learning"];
       key := "learning_style";
       singleSelect := false; isOptional := false; isText := false |};
    {| question := "How much time can you dedicate to learning daily?";
       options := Some ["Less than 30 minutes"; "1 hour"; "2+ hours"];
       key := "daily_time";
       singleSelect := true; isOptional := false; isText := false |};
    {| question := "Are you preparing for any specific certification, exam, or career goal?";
       options := None;
       key := "specific_goals";
       singleSelect := false; isOptional := true; isText := true |} ].

(** [questions.length] *)
Definition questions_length : Z := Z.of_nat (length questions).

(** [questions[i]]: [undefined] outside the array *)
Definition questions_at (i : Z) : option question_def :=
  if i <? 0 then None else questions !! Z.to_nat i.

(** The three [useState] cells of the component. *)
Record state : Type := State {
  currentQuestion : Z;
  answers : gmap string jsval;
  loading : bool
}.

(** [useState(0)], [useState({})], [useState(false)] *)
Definition initial : state :=
  {| currentQuestion := 0; answers := ∅; loading := false |}.

Definition apply_call (st : state) (c : call) : state :=
  match c with
  | SetLoading b =>
      {| currentQuestion := currentQuestion st; answers := answers st; loading := b |}
  | SetAnswers a =>
      {| currentQuestion := currentQuestion st; answers := a; loading := loading st |}
  | SetCurrentQuestion i =>
      {| currentQuestion := i; answers := answers st; loading := loading st |}
  | _ => st
  end.

(** [v.includes(x)]: membership for an array, substring for a string, and
    a [TypeError] ([None]) for a value with no such method. *)
Definition js_includes (v : jsval) (x : string) : option bool :=
  match v with
  | JArr l => Some (bool_decide (x ∈ l))
  | JStr s => Some (JsString.includes s x)
  | JBool _ => None
  end.

Definition handleOptionToggle (st : state) (opt : string) : prog unit :=
  match questions_at (currentQuestion st) with
  | None => Throw (TypeError "questions[currentQuestion] is undefined")
  | Some q =>
      let currentKey := key q in
      if singleSelect q then
        perform (SetAnswers (<[currentKey := JStr opt]> (answers st)))
      else if negb (isText q) then
        let currentAnswers := js_or (answers st !! currentKey) (JArr []) in
        match currentAnswers with
        | JArr l =>
            let updatedAnswers :=
              if bool_decide (opt ∈ l)
              then filter (λ a, a ≠ opt) l
              else (l ++ [opt])%list in
            perform (SetAnswers (<[currentKey := JArr updatedAnswers]> (answers st)))
        | JStr s =>
            if JsString.includes s opt
            then Throw (TypeError "currentAnswers.filter is not a function")
            else perform (SetAnswers
                   (<[currentKey := JArr (JsString.chars s ++ [opt])%list]> (answers st)))
        | JBool _ => Throw (TypeError "currentAnswers.includes is not a function")
        end
      else Ret tt
  end.

Definition handleTextInput (st : state) (value : string) : prog unit :=
  match questions_at (currentQuestion st) with
  | None => Throw (TypeError "questions[currentQuestion] is undefined")
  | Some q =>
      let currentKey := key q in
      perform (SetAnswers (<[currentKey := JStr value]> (answers st)))
  end.

(** The record that [handleSubmit] inserts. *)
Definition response_row (u : user) (a : gmap string jsval) : row :=
  [("user_id", JStr (uid u));
   ("learning_goals", js_or (a !! "learning_goals") (JArr []));
   ("domain_interests", js_or (a !! "domain_interests") (JArr []));
   ("learning_style", js_or (a !! "learning_style") (JArr []));
   ("daily_time", js_or (a !! "daily_time") (JStr ""));
   ("specific_goals", js_or (a !! "specific_goals") (JStr ""))].

Definition completed_fields (completed_at : string) : row :=
  [("is_completed", JBool true); ("completed_at", JStr completed_at)].

Definition error_toast (e : error) : toast_args :=
  {| title := "Error"; description := message e; variant_ := Some destructive |}.

(** The two backend writes of [handleSubmit], with their arguments. *)
Definition insert_responses (u : user) (a : gmap string jsval) : call :=
  Insert "onboarding_responses" [response_row u a].

Definition update_status (u : user) (completed_at : string) : call :=
  Update "onboarding_status" (completed_fields completed_at) "user_id" (uid u).

Definition handleSubmit (st : state) : prog unit :=
  perform (SetLoading true) ;;
  try_finally
    (try_catch
       (user ← perform GetUser;
        match user with
        | None => Throw (new_Error "No user found")
        | Some user =>
            (* Save onboarding responses *)
            responseError ← perform (insert_responses user (answers st));
            throw_if_error responseError ;;
            (* Update onboarding status *)
            completed_at ← perform NowISOString;
            statusError ← perform (update_status user completed_at);
            throw_if_error statusError ;;
            perform (Navigate "/dashboard")
        end)
       (λ error, perform (Toast (error_toast error))))
    (perform (SetLoading false)).

(** The "Previous" control: rendered only when [currentQuestion > 0]; a
    control that is not rendered cannot be pressed. *)
Definition previous_control (st : state) : prog unit :=
  if 0 <? currentQuestion st
  then perform (SetCurrentQuestion (currentQuestion st - 1))
  else Ret tt.

(** The control on the right: "Next" while
    [currentQuestion < questions.length - 1], otherwise "Complete", which
    runs [handleSubmit] and is disabled while [loading]. *)
Definition next_control (st : state) : prog unit :=
  if currentQuestion st <? questions_length - 1
  then perform (SetCurrentQuestion (currentQuestion st + 1))
  else if loading st then Ret tt else handleSubmit st.

(** What the user can do to the component; the names are the spec's. *)
Inductive event : Type :=
| toggleOption (opt : string)
| setText (value : string)
| advance
| retreat.

Definition handler (st : state) (ev : event) : prog unit :=
  match ev with
  | toggleOption opt => handleOptionToggle st opt
  | setText value => handleTextInput st value
  | advance => next_control st
  | retreat => previous_control st
  end.

(** One event with its handler run to the end: the handler of the current
    render runs against the surroundings [o], and its setter calls make
    the next state. For the handlers that await nothing this is the whole
    event; for [handleSubmit] it is the state once the submission has
    settled with nothing else happening meanwhile ([async_step] has the
    states in between). *)
Definition step (o : oracle) (st : state) (ev : event) : state :=
  commit apply_call st (trace o (handler st ev)).

(** A session: events in the order they happen, each with the surroundings
    its handler meets. *)
Definition session (st : state) (evs : list (oracle * event)) : state :=
  foldl (λ st oe, step oe.1 st oe.2) st evs.

(** The answer of the current question as the handlers and the view read
    it when it holds a selection: [answers[key] || []]. *)
Definition selection (st : state) (k : string) : jsval :=
  js_or (answers st !! k) (JArr []).

(** The [checked] property of the box of [opt] in the current render:
    [currentQ.singleSelect ? answers[currentQ.key] === option
                           : (answers[currentQ.key] || []).includes(option)];
    [None] is the [TypeError] of a value with no [includes]. *)
Definition checked (st : state) (q : question_def) (opt : string) : option bool :=
  if singleSelect q
  then Some (bool_decide (answers st !! key q = Some (JStr opt)))
  else js_includes (js_or (answers st !! key q) (JArr [])) opt.

(** A question with options that is neither single-select nor free text. *)
Definition multiSelect (q : question_def) : Prop :=
  is_Some (options q) ∧ singleSelect q = false ∧ isText q = false.

(** [toggleOption] once per option of [opts], in order, each call in the
    render that follows the previous one. *)
Definition toggles (o : oracle) (st : state) (opts : list string) : state :=
  session st (map (λ opt, (o, toggleOption opt)) opts).

(** *** The view *)

(** What the component draws below the question: the text area with its
    value, or one box per option with its [checked] property. *)
Inductive body_view : Type :=
| TextArea (value : jsval)
| OptionBoxes (boxes : list (string * bool)).

(** The control on the right. *)
Inductive right_control : Type :=
| NextButton
| CompleteButton (disabled : bool) (label : string).

Record view : Type := View {
  heading : Z * Z;          (* Question {currentQuestion + 1} of {questions.length} *)
  prompt : string;          (* currentQ.question *)
  body : body_view;
  previous : bool;          (* currentQuestion > 0 && <Button> Previous *)
  right_ : right_control
}.

(** The render of the component; [None] when it throws (a question outside
    the array, options that are missing, a stored value with no
    [includes]). The width of the progress bar, a floating-point product,
    is left out. *)
Definition render (st : state) : option view :=
  currentQ ← questions_at (currentQuestion st);
  b ← (if isText currentQ
       then Some (TextArea (js_or (answers st !! key currentQ) (JStr "")))
       else opts ← options currentQ;
            OptionBoxes <$>
              mapM (λ opt, c ← checked st currentQ opt; Some (opt, c)) opts);
  Some {| heading := (currentQuestion st + 1, questions_length);
          prompt := question currentQ;
          body := b;
          previous := 0 <? currentQuestion st;
          right_ := if currentQuestion st <? questions_length - 1
                    then NextButton
                    else CompleteButton (loading st)
                           (if loading st then "Submitting..." else "Complete") |}.

(** The events a view lets the user raise: a toggle for each box it
    shows, text input when it shows the text area, going back when
    "Previous" is there, going forward unless "Complete" is disabled. *)
Definition offers (v : view) (ev : event) : bool :=
  match ev with
  | toggleOption opt =>
      match body v with
      | OptionBoxes boxes => bool_decide (opt ∈ boxes.*1)
      | TextArea _ => false
      end
  | setText _ =>
      match body v with
      | TextArea _ => true
      | OptionBoxes _ => false
      end
  | retreat => previous v
  | advance =>
      match right_ v with
      | CompleteButton true _ => false
      | _ => true
      end
  end.

(** One event raised through the view: nothing happens when the render
    threw or the view does not offer the event. *)
Definition ui_step (o : oracle) (st : state) (ev : event) : state :=
  match render st with
  | Some v => if offers v ev then step o st ev else st
  | None => st
  end.

Definition ui_session (st : state) (evs : list (oracle * event)) : state :=
  foldl (λ st oe, ui_step oe.1 st oe.2) st evs.

(** A stored value of the shape its question writes: one of the options
    for a single-select question, a string for the free-text question, a
    duplicate-free array of options otherwise. *)
Definition answer_ok (q : question_def) (v : jsval) : Prop :=
  if singleSelect q then ∃ x, v = JStr x ∧ x ∈ default [] (options q)
  else if isText q then ∃ s, v = JStr s
  else ∃ l, v = JArr l ∧ NoDup l ∧ l ⊆ default [] (options q).

Definition answers_ok (a : gmap string jsval) : Prop :=
  ∀ k v, a !! k = Some v → ∃ q, q ∈ questions ∧ key q = k ∧ answer_ok q v.

(** *** Submissions in flight *)

(** The component with the handlers that are waiting for the backend. *)
Record config : Type := Config {
  ui : state;
  inflight : list task
}.

Definition start : config := {| ui := initial; inflight := [] |}.

(** What happens to the component: the user raises an event, or the
    answer that the [n]-th waiting handler awaits arrives. *)
Inductive occurrence : Type :=
| by_user (ev : event)
| settle (n : nat).

(** One occurrence. The handler of a user event runs in the current render
    up to the first call it awaits; a settled handler runs from where it
    stopped up to the next one. The setter calls made on the way are
    applied to the state at that moment; a handler that stops joins the
    waiting ones. *)
Definition async_step (o : oracle) (c : config) (e : occurrence) : config :=
  match e with
  | by_user ev =>
      let '(t, pr) := run_sync o (handler (ui c) ev) in
      {| ui := commit apply_call (ui c) t; inflight := inflight c ++ spawn pr |}
  | settle n =>
      match inflight c !! n with
      | Some tk =>
          let '(t, pr) := resume o tk in
          {| ui := commit apply_call (ui c) t;
             inflight := delete n (inflight c) ++ spawn pr |}
      | None => c
      end
  end.



(** The same through the view: a user event happens only when the current
    render offers it; backend answers arrive when they will. *)
Definition ui_async_step (o : oracle) (c : config) (e : occurrence) : config :=
  match e with
  | by_user ev =>
      match render (ui c) with
      | Some v => if offers v ev then async_step o c e else c
      | None => c
      end
  | settle _ => async_step o c e
  end.

Definition ui_async_session (c : config) (es : list (oracle * occurrence)) : config :=
  foldl (λ c oe, ui_async_step oe.1 c oe.2) c es.

(** The states a user can bring the component to through its view. *)
Definition ui_reachable (st : state) : Prop :=
  ∃ es, st = ui (ui_async_session start es).

End Onboarding.

(** * Properties *)

(** ** Running handlers *)

(** A handler that returns nothing returns [()], whatever its last call
    answered. *)
Ltac returns :=
  repeat match goal with
         | |- context [@Returned unit ?x] => lazymatch x with tt => fail | _ => destruct x end
         end;
  done.

(** ** The model on some inputs *)

(** The questionnaire has five questions. *)
Example five_questions : Onboarding.questions_length = 5.
Proof. reflexivity. Qed.

Example toggle_four_times :
  Onboarding.selection
    (Onboarding.toggles silent (Onboarding.State 0 ∅ false)
       ["Personal growth"; "Improving skills"; "Personal growth"; "Preparing for exams"])
    "learning_goals"
  = JArr ["Improving skills"; "Preparing for exams"].
Proof. vm_compute. reflexivity. Qed.

(** On the free-text question [handleOptionToggle] does nothing. *)
Example toggle_on_text_question :
  Onboarding.step silent (Onboarding.State 4 ∅ false) (Onboarding.toggleOption "x")
  = Onboarding.State 4 ∅ false.
Proof. reflexivity. Qed.

Example lowered_message_matches :
  Auth.already_registered (Error (Some "Email ALREADY EXISTS")) = true.
Proof. reflexivity. Qed.

(** The error of a failed status insert does not pass the test of the
    inner [catch]; it reaches the outer one. *)
Example failed_insert_is_not_account_exists :
  Auth.already_registered (new_Error "Failed to initialize onboarding") = false.
Proof. reflexivity. Qed.

Example sign_up_then_failed_insert :
  trace (with_sign_up (SignupResult (Some (User "u1")) None)
           (λ c, match c return resp c with
                 | Insert _ _ => Some (Error (Some "permission denied"))
                 | c => silent c
                 end))
    (Auth.handleAuth (Auth.FormData "ada@example.org" "pw" (Some "pw") None None) false)
  = [SetLoading true;
     SignUp "ada@example.org" "pw" None None;
     Sleep 2000;
     NowISOString;
     Insert "onboarding_status"
       [[("user_id", JStr "u1"); ("is_completed", JBool false);
         ("created_at", JStr "2026-01-01T00:00:00.000Z")]];
     ConsoleError "Error creating onboarding status:" (Error (Some "permission denied"));
     ConsoleError "Auth error:" (Error (Some "Failed to initialize onboarding"));
     Toast {| title := "Error";
              description := Some "Failed to initialize onboarding";
              variant_ := Some destructive |};
     SetLoading false].
Proof. reflexivity. Qed.

(** ** Strings *)

Lemma append_cons (c : ascii) (a b : string) :
  (String c a ++ b)%string = String c (a ++ b)%string.
Proof. reflexivity. Qed.

Lemma prefix_app (p s : string) :
  String.prefix p s = true ↔ ∃ b, s = (p ++ b)%string.
Proof.
  revert s. induction p as [|c p IH]; intros [|d s]; simpl.
  - split; [by exists EmptyString|done].
  - split; [by exists (String d s)|done].
  - split; [done|by intros [b ?]].
  - destruct (Ascii.ascii_dec c d) as [->|Hne].
    + rewrite IH. split; intros [b Hb]; exists b;
        rewrite append_cons in *; congruence.
    + split; [done|]. intros [b Hb]. rewrite append_cons in Hb. congruence.
Qed.

Lemma includes_nil (pat : string) :
  JsString.includes EmptyString pat = String.prefix pat EmptyString.
Proof. simpl. apply orb_false_r. Qed.

Lemma includes_cons (c : ascii) (s pat : string) :
  JsString.includes (String c s) pat
  = String.prefix pat (String c s) || JsString.includes s pat.
Proof. reflexivity. Qed.

(** [includes] is the substring test. *)
Lemma includes_spec (s pat : string) :
  JsString.includes s pat = true ↔ ∃ a b, s = (a ++ pat ++ b)%string.
Proof.
  induction s as [|c s IH].
  - rewrite includes_nil, prefix_app. split.
    + intros [b Hb]. by exists EmptyString, b.
    + intros [[|c a] [b Hb]]; [by exists b|done].
  - rewrite includes_cons, orb_true_iff, prefix_app, IH. split.
    + intros [[b Hb]|(a & b & Hab)].
      * by exists EmptyString, b.
      * exists (String c a), b. by rewrite append_cons, Hab.
    + intros [[|d a] [b Hb]].
      * left. by exists b.
      * right. exists a, b. rewrite append_cons in Hb. congruence.
Qed.

(** ** The onboarding questionnaire: single handlers *)

Section OnboardingSteps.
Import Onboarding.
Variables (o : oracle) (st : state) (q : question_def).
Hypothesis Hq : questions_at (currentQuestion st) = Some q.

Lemma step_toggle_single (x : string) :
  singleSelect q = true →
  step o st (toggleOption x)
  = {| currentQuestion := currentQuestion st;
       answers := <[key q := JStr x]> (answers st);
       loading := loading st |}.
Proof.
  intros Hs. unfold step, handler, handleOptionToggle. by rewrite Hq, Hs.
Qed.

Lemma step_toggle_multi (x : string) (l : list string) :
  singleSelect q = false → isText q = false →
  selection st (key q) = JArr l →
  step o st (toggleOption x)
  = {| currentQuestion := currentQuestion st;
       answers :=
         <[key q := JArr (if bool_decide (x ∈ l)
                          then filter (λ a, a ≠ x) l
                          else (l ++ [x])%list)]> (answers st);
       loading := loading st |}.
Proof.
  intros Hs Ht Hl. unfold step, handler, handleOptionToggle.
  rewrite Hq, Hs, Ht. simpl. unfold selection in Hl. by rewrite Hl.
Qed.

End OnboardingSteps.

Lemma selection_stored (st : Onboarding.state) (k : string) (l : list string) :
  Onboarding.answers st !! k = Some (JArr l) → Onboarding.selection st k = JArr l.
Proof. intros H. unfold Onboarding.selection. by rewrite H. Qed.

Lemma toggles_snoc (o : oracle) (st : Onboarding.state) (opts : list string)
    (x : string) :
  Onboarding.toggles o st (opts ++ [x])
  = Onboarding.step o (Onboarding.toggles o st opts) (Onboarding.toggleOption x).
Proof. unfold Onboarding.toggles, Onboarding.session. by rewrite map_app, foldl_app. Qed.

Lemma odd_count_snoc (opts : list string) (x y : string) :
  Nat.odd (count_occ string_dec (opts ++ [x]) y)
  = xorb (Nat.odd (count_occ string_dec opts y)) (bool_decide (x = y)).
Proof.
  rewrite count_occ_app, Nat.odd_add. f_equal. simpl.
  destruct (string_dec x y);
    [by rewrite bool_decide_true|by rewrite bool_decide_false].
Qed.

Lemma toggles_multi (o : oracle) (st : Onboarding.state) (q : Onboarding.question_def)
    (opts : list string) :
  Onboarding.questions_at (Onboarding.currentQuestion st) = Some q →
  Onboarding.singleSelect q = false → Onboarding.isText q = false →
  Onboarding.selection st (Onboarding.key q) = JArr [] →
  ∃ l, Onboarding.selection (Onboarding.toggles o st opts) (Onboarding.key q) = JArr l
       ∧ (opts ≠ [] →
          Onboarding.answers (Onboarding.toggles o st opts) !! Onboarding.key q
          = Some (JArr l))
       ∧ Onboarding.currentQuestion (Onboarding.toggles o st opts)
         = Onboarding.currentQuestion st
       ∧ NoDup l
       ∧ ∀ x, x ∈ l ↔ Nat.odd (count_occ string_dec opts x) = true.
Proof.
  intros Hq Hs Ht H0. induction opts as [|x opts IH] using rev_ind.
  - exists []. split_and!; [done|done|done|constructor|].
    intros x. simpl. split; [by intros ?%elem_of_nil|done].
  - destruct IH as (l & Hl & _ & Hi & Hnd & Hodd).
    rewrite toggles_snoc.
    rewrite (step_toggle_multi o _ q ltac:(by rewrite Hi) x l Hs Ht Hl).
    eexists. split_and!.
    + apply selection_stored. simpl. apply lookup_insert_eq.
    + intros _. simpl. apply lookup_insert_eq.
    + done.
    + case_bool_decide; [by apply NoDup_filter|].
      apply NoDup_app. split_and!; [done| |apply NoDup_singleton].
      intros y Hy ->%list_elem_of_singleton. done.
    + intros y. rewrite odd_count_snoc. specialize (Hodd y).
      case_bool_decide as Hx.
      * rewrite list_elem_of_filter, Hodd.
        case_bool_decide as Hxy; [subst y|].
        -- apply Hodd in Hx. rewrite Hx. simpl. intuition congruence.
        -- rewrite xorb_false_r. intuition congruence.
      * rewrite elem_of_app, list_elem_of_singleton, Hodd.
        case_bool_decide as Hxy; [subst y|].
        -- destruct (Nat.odd (count_occ string_dec opts x)) eqn:E.
           ++ exfalso. by apply Hx, Hodd.
           ++ simpl. intuition congruence.
        -- rewrite xorb_false_r. intuition congruence.
Qed.

Section OnboardingControls.
Import Onboarding.
Variables (o : oracle) (st : state).

(** Whatever the backend answers, [handleSubmit] sets [loading] and
    resets it, and touches no other cell. *)
Lemma commit_handleSubmit :
  commit apply_call st (trace o (handleSubmit st))
  = {| currentQuestion := currentQuestion st; answers := answers st;
       loading := false |}.
Proof.
  unfold trace, handleSubmit. simpl.
  destruct (o GetUser) as [u|]; simpl; [|done].
  destruct (o (insert_responses _ _)) as [e|]; simpl; [done|].
  by destruct (o (update_status _ _)) as [e|].
Qed.

Lemma step_retreat :
  step o st retreat
  = if 0 <? currentQuestion st
    then {| currentQuestion := currentQuestion st - 1; answers := answers st;
            loading := loading st |}
    else st.
Proof. unfold step, handler, previous_control. by destruct (0 <? _). Qed.

Lemma step_advance :
  step o st advance
  = if currentQuestion st <? questions_length - 1
    then {| currentQuestion := currentQuestion st + 1; answers := answers st;
            loading := loading st |}
    else st.
Proof.
  unfold step, handler, next_control. destruct (_ <? _); [done|].
  destruct (loading st) eqn:Hl; [done|].
  rewrite commit_handleSubmit. destruct st. simpl in *. by subst.
Qed.

Lemma step_toggleOption (x : string) :
  ∃ a, step o st (toggleOption x)
       = {| currentQuestion := currentQuestion st; answers := a;
            loading := loading st |}
       ∧ ∀ q k, questions_at (currentQuestion st) = Some q → k ≠ key q →
                a !! k = answers st !! k.
Proof.
  unfold step, handler, handleOptionToggle.
  destruct (questions_at _) as [q|] eqn:Hq;
    [|exists (answers st); by destruct st].
  destruct (singleSelect q).
  { eexists. split; [done|]. intros ? k [= <-] Hk. by apply lookup_insert_ne. }
  destruct (isText q); simpl; [exists (answers st); by destruct st|].
  destruct (js_or _ _) as [s|l|b]; [destruct (JsString.includes s x)| |];
    try (exists (answers st); by destruct st);
    (eexists; split; [done|]; intros ? k [= <-] Hk; by apply lookup_insert_ne).
Qed.

Lemma step_setText_frame (v : string) :
  ∃ a, step o st (setText v)
       = {| currentQuestion := currentQuestion st; answers := a;
            loading := loading st |}
       ∧ ∀ q k, questions_at (currentQuestion st) = Some q → k ≠ key q →
                a !! k = answers st !! k.
Proof.
  unfold step, handler, handleTextInput.
  destruct (questions_at _) as [q|] eqn:Hq;
    [|exists (answers st); by destruct st].
  eexists. split; [done|]. intros ? k [= <-] Hk. by apply lookup_insert_ne.
Qed.
End OnboardingControls.

(** ** Handlers that await *)

(** A handler that awaits nothing runs to its end at once. *)
Lemma run_sync_quiet (o : oracle) (p : prog unit) :
  forallb (λ c, negb (is_awaited c)) (trace o p) = true →
  run_sync o p = (trace o p, Finished (run o p).2).
Proof.
  unfold trace. induction p as [a|e|c k IH]; simpl; [done..|].
  destruct (run o (k (o c))) as [t r] eqn:Hr. simpl.
  intros [Hc Ht]%andb_prop. apply negb_true_iff in Hc. rewrite Hc.
  specialize (IH (o c)). rewrite Hr in IH. by rewrite (IH Ht).
Qed.

(** A handler that only issues calls that keep the answers and the index
    does so up to its next stop, and what it leaves waiting does so too. *)
Lemma run_sync_keeps (o : oracle) (p : prog unit) :
  only_keeps p →
  forallb keeps (run_sync o p).1 = true ∧ Forall task_keeps (spawn (run_sync o p).2).
Proof.
  induction 1 as [a|e|c k Hc Hk IH]; simpl; [by split; [|constructor]..|].
  destruct (is_awaited c); simpl.
  - rewrite Hc. split; [done|]. by repeat constructor.
  - specialize (IH (o c)). destruct (run_sync o (k (o c))) as [t r]. simpl in *.
    by rewrite Hc.
Qed.


Lemma commit_keeps (st : Onboarding.state) (t : list call) :
  forallb keeps t = true →
  Onboarding.currentQuestion (commit Onboarding.apply_call st t)
  = Onboarding.currentQuestion st
  ∧ Onboarding.answers (commit Onboarding.apply_call st t) = Onboarding.answers st.
Proof.
  unfold commit. revert st. induction t as [|c t IH]; intros st; simpl; [done|].
  intros [Hc Ht]%andb_prop. destruct (IH (Onboarding.apply_call st c) Ht) as [-> ->].
  by destruct c.
Qed.

Lemma only_keeps_bind {A B} (p : prog A) (f : A → prog B) :
  only_keeps p → (∀ a, only_keeps (f a)) → only_keeps (p ≫= f).
Proof.
  intros Hp Hf. induction Hp as [a|e|c k Hc Hk IH]; [apply Hf|constructor|].
  simpl. apply only_keeps_Do; [done|]. intros r. apply IH.
Qed.

Lemma only_keeps_try_catch {A} (p : prog A) (h : error → prog A) :
  only_keeps p → (∀ e, only_keeps (h e)) → only_keeps (try_catch p h).
Proof.
  intros Hp Hh. induction Hp as [a|e|c k Hc Hk IH]; [constructor|apply Hh|].
  simpl. apply only_keeps_Do; [done|]. intros r. apply IH.
Qed.

Lemma only_keeps_try_finally {A} (p : prog A) (f : prog unit) :
  only_keeps p → only_keeps f → only_keeps (try_finally p f).
Proof.
  intros Hp Hf. induction Hp as [a|e|c k Hc Hk IH].
  - apply (only_keeps_bind f); [done|]. intros _. constructor.
  - apply (only_keeps_bind f); [done|]. intros _. constructor.
  - simpl. apply only_keeps_Do; [done|]. intros r. apply IH.
Qed.

Lemma only_keeps_perform (c : call) : keeps c = true → only_keeps (perform c).
Proof. intros Hc. apply only_keeps_Do; [done|]. intros r. constructor. Qed.

Lemma only_keeps_throw_if_error (e : option error) : only_keeps (throw_if_error e).
Proof. destruct e; constructor. Qed.

Ltac keeps_perform :=
  lazymatch goal with
  | |- only_keeps (perform ?c) => by apply (only_keeps_perform c)
  end.

Lemma handleSubmit_keeps (st : Onboarding.state) :
  only_keeps (Onboarding.handleSubmit st).
Proof.
  unfold Onboarding.handleSubmit.
  apply only_keeps_bind; [keeps_perform|intros _].
  apply only_keeps_try_finally; [|keeps_perform].
  apply only_keeps_try_catch; [|intros e; keeps_perform].
  apply only_keeps_bind; [keeps_perform|intros [u|]]; [|constructor].
  apply only_keeps_bind; [keeps_perform|intros e].
  apply only_keeps_bind; [apply only_keeps_throw_if_error|intros _].
  apply only_keeps_bind; [keeps_perform|intros now].
  apply only_keeps_bind; [keeps_perform|intros e'].
  apply only_keeps_bind; [apply only_keeps_throw_if_error|intros _].
  keeps_perform.
Qed.

Section Async.
Import Onboarding.
Variables (o : oracle) (c : config).

(** The handlers other than a submission await nothing. *)
Lemma handler_awaits_nothing (ev : event) :
  ¬ (ev = advance ∧ questions_length - 1 ≤ currentQuestion (ui c)
     ∧ loading (ui c) = false) →
  forallb (λ c, negb (is_awaited c)) (trace o (handler (ui c) ev)) = true.
Proof.
  intros Hn. destruct ev as [x|v| |]; simpl.
  - unfold trace, handleOptionToggle.
    destruct (questions_at _) as [q|]; [|done].
    destruct (singleSelect q); [done|].
    destruct (isText q); simpl; [done|].
    destruct (js_or _ _) as [s|l|b]; [by destruct (JsString.includes s x)|done..].
  - unfold trace, handleTextInput. by destruct (questions_at _) as [q|].
  - unfold next_control.
    destruct (Z.ltb_spec (currentQuestion (ui c)) (questions_length - 1)); [done|].
    destruct (loading (ui c)); [done|]. exfalso. apply Hn. split_and!; [done|lia|done].
  - unfold trace, previous_control. by destruct (0 <? _).
Qed.

(** A user event either is over at once, with the state of [step], or
    starts a submission: the loading flag is set and the handler waits for
    the session user. *)
Lemma async_user_step (ev : event) :
  (ui (async_step o c (by_user ev)) = step o (ui c) ev
   ∧ inflight (async_step o c (by_user ev)) = inflight c)
  ∨ (ev = advance ∧ questions_length - 1 ≤ currentQuestion (ui c)
     ∧ loading (ui c) = false
     ∧ ui (async_step o c (by_user ev))
       = {| currentQuestion := currentQuestion (ui c); answers := answers (ui c);
            loading := true |}
     ∧ ∃ tk, inflight (async_step o c (by_user ev)) = (inflight c ++ [tk])%list
             ∧ task_keeps tk).
Proof.
  assert ((ev = advance ∧ questions_length - 1 ≤ currentQuestion (ui c)
           ∧ loading (ui c) = false)
          ∨ ¬ (ev = advance ∧ questions_length - 1 ≤ currentQuestion (ui c)
               ∧ loading (ui c) = false)) as [(-> & Hi & Hl)|Hn].
  { destruct ev; try (right; by intros [? _]).
    destruct (Z.le_gt_cases (questions_length - 1) (currentQuestion (ui c)));
      [|right; intros (_ & ? & _); lia].
    destruct (loading (ui c)); [right; by intros (_ & _ & ?)|by left]. }
  - right.
    pose proof (run_sync_keeps o (handleSubmit (ui c)) (handleSubmit_keeps _))
      as [_ Hs].
    assert (∃ tk, run_sync o (handleSubmit (ui c))
                  = ([SetLoading true; GetUser], Suspended tk)) as [tk Hr]
      by (eexists; reflexivity).
    rewrite Hr in Hs. simpl in Hs. apply (proj1 (Forall_singleton _ _)) in Hs.
    assert (handler (ui c) advance = handleSubmit (ui c)) as Hh.
    { simpl. unfold next_control.
      destruct (Z.ltb_spec (currentQuestion (ui c)) (questions_length - 1)); [lia|].
      by rewrite Hl. }
    unfold async_step. rewrite Hh, Hr. simpl. split_and!; [done..|]. by exists tk.
  - left. simpl. rewrite (run_sync_quiet o _ (handler_awaits_nothing ev Hn)).
    simpl. by rewrite app_nil_r.
Qed.

(** A backend answer changes neither the answers nor the index. *)
Lemma async_settle_step (n : nat) :
  Forall task_keeps (inflight c) →
  currentQuestion (ui (async_step o c (settle n))) = currentQuestion (ui c)
  ∧ answers (ui (async_step o c (settle n))) = answers (ui c)
  ∧ Forall task_keeps (inflight (async_step o c (settle n))).
Proof.
  intros Hk. simpl. destruct (inflight c !! n) as [[a k]|] eqn:Hn; [|done].
  pose proof (Forall_lookup_1 _ _ _ _ Hk Hn) as Hkn. simpl in Hkn.
  destruct (run_sync_keeps o (k (o a)) (Hkn (o a))) as [Ht Hs].
  unfold resume. destruct (run_sync o (k (o a))) as [t pr]. simpl in *.
  destruct (commit_keeps (ui c) t Ht) as [-> ->]. split_and!; [done..|].
  apply Forall_app. split; [|done]. by apply Forall_delete.
Qed.
End Async.

(** An event run to its end keeps the index inside the array. *)
Lemma step_index (o : oracle) (st : Onboarding.state) (ev : Onboarding.event) :
  0 ≤ Onboarding.currentQuestion st ≤ Onboarding.questions_length - 1 →
  0 ≤ Onboarding.currentQuestion (Onboarding.step o st ev)
    ≤ Onboarding.questions_length - 1.
Proof.
  intros Hi. destruct ev as [x|v| |].
  - by destruct (step_toggleOption o st x) as (a & -> & _).
  - by destruct (step_setText_frame o st v) as (a & -> & _).
  - rewrite step_advance. destruct (Z.ltb_spec (Onboarding.currentQuestion st)
                                      (Onboarding.questions_length - 1)); [simpl|done].
    lia.
  - rewrite step_retreat. destruct (Z.ltb_spec 0 (Onboarding.currentQuestion st));
      [simpl|done].
    lia.
Qed.

Lemma async_step_inv (o : oracle) (c : Onboarding.config) (e : Onboarding.occurrence) :
  0 ≤ Onboarding.currentQuestion (Onboarding.ui c) ≤ Onboarding.questions_length - 1
  ∧ Forall task_keeps (Onboarding.inflight c) →
  0 ≤ Onboarding.currentQuestion (Onboarding.ui (Onboarding.async_step o c e))
    ≤ Onboarding.questions_length - 1
  ∧ Forall task_keeps (Onboarding.inflight (Onboarding.async_step o c e)).
Proof.
  intros [Hi Hk]. destruct e as [ev|n].
  - destruct (async_user_step o c ev)
      as [[-> ->]|(_ & _ & _ & -> & tk & -> & Htk)].
    + split; [by apply step_index|done].
    + split; [done|]. apply Forall_app. split; [done|]. by apply Forall_singleton.
  - by destruct (async_settle_step o c n Hk) as (-> & _ & ?).
Qed.




(** * The claims *)

Section OnboardingClaims.
Import Onboarding.

(** C1. Toggling options of a multi-select question, starting with no
    answers: the selection of that question holds, without repetition,
    exactly the options toggled an odd number of times; after the first
    toggle it is the value stored under the question's key. *)
Theorem toggle_parity (o : oracle) (i : Z) (q : question_def) (opts : list string) :
  questions_at i = Some q →
  multiSelect q →
  ∃ l, selection (toggles o (State i ∅ false) opts) (key q) = JArr l
       ∧ (opts ≠ [] →
          answers (toggles o (State i ∅ false) opts) !! key q = Some (JArr l))
       ∧ NoDup l
       ∧ ∀ x, x ∈ l ↔ Nat.odd (count_occ string_dec opts x) = true.
Proof.
  intros Hq (_ & Hs & Ht).
  destruct (toggles_multi o (State i ∅ false) q opts Hq Hs Ht)
    as (l & Hl & Hst & _ & Hnd & Hodd); [done|].
  by exists l.
Qed.

Lemma toggle_parity_witness :
  multiSelect
    {| question := "What is your preferred learning style?";
       options := Some ["Video tutorials"; "Interactive quizzes"; "Reading";
                        "Peer-to-peer learning"];
       key := "learning_style";
       singleSelect := false; isOptional := false; isText := false |}
  ∧ ∃ l, selection (toggles silent (State 2 ∅ false)
                      ["Reading"; "Video tutorials"; "Reading"])
           "learning_style" = JArr l
         ∧ (["Reading"; "Video tutorials"; "Reading"] ≠ [] →
            answers (toggles silent (State 2 ∅ false)
                       ["Reading"; "Video tutorials"; "Reading"])
              !! "learning_style" = Some (JArr l))
         ∧ NoDup l
         ∧ ∀ x, x ∈ l
             ↔ Nat.odd (count_occ string_dec ["Reading"; "Video tutorials"; "Reading"] x)
               = true.
Proof.
  split; [split; [by eexists|by split]|].
  apply (toggle_parity silent 2
           {| question := "What is your preferred learning style?";
              options := Some ["Video tutorials"; "Interactive quizzes"; "Reading";
                               "Peer-to-peer learning"];
              key := "learning_style";
              singleSelect := false; isOptional := false; isText := false |}).
  - reflexivity.
  - split; [by eexists|by split].
Defined.

(** C2. On a single-select question, toggling option [a] and then option
    [b] leaves exactly [b] stored under the question's key, and [b] is
    the one option whose box is checked. *)
Theorem single_select_replaces (o1 o2 : oracle) (st : state) (q : question_def)
    (a b : string) :
  questions_at (currentQuestion st) = Some q →
  singleSelect q = true →
  answers (step o2 (step o1 st (toggleOption a)) (toggleOption b)) !! key q
  = Some (JStr b)
  ∧ ∀ x, checked (step o2 (step o1 st (toggleOption a)) (toggleOption b)) q x
         = Some (bool_decide (x = b)).
Proof.
  intros Hq Hs.
  rewrite (step_toggle_single o1 st q Hq a Hs).
  rewrite (step_toggle_single o2
             (State (currentQuestion st) (<[key q:=JStr a]> (answers st)) (loading st))
             q Hq b Hs). simpl.
  rewrite lookup_insert_eq. split; [done|].
  intros x. unfold checked. rewrite Hs. simpl. rewrite lookup_insert_eq.
  f_equal. apply bool_decide_ext. split; congruence.
Qed.

Lemma single_select_replaces_witness :
  answers (step silent (step silent (State 3 ∅ false) (toggleOption "1 hour"))
             (toggleOption "2+ hours")) !! "daily_time"
  = Some (JStr "2+ hours")
  ∧ ∀ x, checked (step silent (step silent (State 3 ∅ false) (toggleOption "1 hour"))
                    (toggleOption "2+ hours"))
           {| question := "How much time can you dedicate to learning daily?";
              options := Some ["Less than 30 minutes"; "1 hour"; "2+ hours"];
              key := "daily_time";
              singleSelect := true; isOptional := false; isText := false |} x
         = Some (bool_decide (x = "2+ hours")).
Proof.
  apply (single_select_replaces silent silent (State 3 ∅ false)
           {| question := "How much time can you dedicate to learning daily?";
              options := Some ["Less than 30 minutes"; "1 hour"; "2+ hours"];
              key := "daily_time";
              singleSelect := true; isOptional := false; isText := false |}
           "1 hour" "2+ hours"); reflexivity.
Defined.




(** C10. Going forward or back leaves the answers (and the loading flag)
    as they were; [toggleOption] and [setText] leave the index (and the
    loading flag) as they were and change the answers at most under the
    key of the current question. *)
Theorem handlers_frame (o : oracle) (st : state) :
  (answers (step o st advance) = answers st
   ∧ loading (step o st advance) = loading st)
  ∧ (answers (step o st retreat) = answers st
     ∧ loading (step o st retreat) = loading st)
  ∧ (∀ opt,
       currentQuestion (step o st (toggleOption opt)) = currentQuestion st
       ∧ loading (step o st (toggleOption opt)) = loading st
       ∧ ∀ q k, questions_at (currentQuestion st) = Some q → k ≠ key q →
                answers (step o st (toggleOption opt)) !! k = answers st !! k)
  ∧ (∀ value,
       currentQuestion (step o st (setText value)) = currentQuestion st
       ∧ loading (step o st (setText value)) = loading st
       ∧ ∀ q k, questions_at (currentQuestion st) = Some q → k ≠ key q →
                answers (step o st (setText value)) !! k = answers st !! k).
Proof.
  split_and!.
  - rewrite step_advance. by destruct (_ <? _).
  - rewrite step_advance. by destruct (_ <? _).
  - rewrite step_retreat. by destruct (_ <? _).
  - rewrite step_retreat. by destruct (_ <? _).
  - intros opt. by destruct (step_toggleOption o st opt) as (a & -> & Ha).
  - intros value. by destruct (step_setText_frame o st value) as (a & -> & Ha).
Qed.
End OnboardingClaims.

Section SubmitClaims.
Import Onboarding.
Variables (o : oracle) (st : state).

(** What [handleSubmit] does, by the answers of the backend. *)
Lemma run_handleSubmit :
  run o (handleSubmit st)
  = (SetLoading true :: GetUser ::
     match o GetUser with
     | None => [Toast (error_toast (new_Error "No user found"))]
     | Some u =>
         insert_responses u (answers st) ::
         match o (insert_responses u (answers st)) with
         | Some e => [Toast (error_toast e)]
         | None =>
             NowISOString :: update_status u (o NowISOString) ::
             match o (update_status u (o NowISOString)) with
             | Some e => [Toast (error_toast e)]
             | None => [Navigate "/dashboard"]
             end
         end
     end ++ [SetLoading false], Returned tt).
Proof.
  unfold handleSubmit. simpl.
  destruct (o GetUser) as [u|]; simpl; [|returns].
  destruct (o (insert_responses _ _)) as [e|]; simpl; [returns|].
  destruct (o (update_status _ _)) as [e|]; simpl; returns.
Qed.

(** C4. With a session user, [handleSubmit] inserts the response record
    and ends normally whatever was answered; in the record every key
    that has no answer holds its empty value: the empty list for
    learning_goals, domain_interests and learning_style, the empty
    string for daily_time and specific_goals. *)
Theorem submit_defaults (u : user) :
  o GetUser = Some u →
  (∃ rest,
     run o (handleSubmit st)
     = (SetLoading true :: GetUser ::
        Insert "onboarding_responses" [response_row u (answers st)] :: rest,
        Returned tt))
  ∧ (answers st !! "learning_goals" = None →
     row_get (response_row u (answers st)) "learning_goals" = Some (JArr []))
  ∧ (answers st !! "domain_interests" = None →
     row_get (response_row u (answers st)) "domain_interests" = Some (JArr []))
  ∧ (answers st !! "learning_style" = None →
     row_get (response_row u (answers st)) "learning_style" = Some (JArr []))
  ∧ (answers st !! "daily_time" = None →
     row_get (response_row u (answers st)) "daily_time" = Some (JStr ""))
  ∧ (answers st !! "specific_goals" = None →
     row_get (response_row u (answers st)) "specific_goals" = Some (JStr "")).
Proof.
  intros Hu. split.
  - rewrite run_handleSubmit, Hu. eexists. reflexivity.
  - split_and!; intros H; simpl; by rewrite H.
Qed.

(** C5, as the code has it. Without a session user [handleSubmit] writes
    nothing, shows the notice "No user found" and does not navigate.
    With one, it issues one insert of the response record with the
    user's id; if that fails, it shows the error and does nothing more;
    if it succeeds, one update of the user's onboarding status follows,
    with [is_completed] true and the time of completion; if the update
    fails, it shows the error and does not navigate; if both succeed, it
    navigates to the dashboard and shows no notice. *)
Theorem submit_calls :
  (o GetUser = None →
   run o (handleSubmit st)
   = ([SetLoading true; GetUser;
       Toast {| title := "Error"; description := Some "No user found";
                variant_ := Some destructive |};
       SetLoading false], Returned tt))
  ∧ (∀ u e,
       o GetUser = Some u →
       o (insert_responses u (answers st)) = Some e →
       run o (handleSubmit st)
       = ([SetLoading true; GetUser;
           Insert "onboarding_responses" [response_row u (answers st)];
           Toast {| title := "Error"; description := message e;
                    variant_ := Some destructive |};
           SetLoading false], Returned tt))
  ∧ (∀ u e,
       o GetUser = Some u →
       o (insert_responses u (answers st)) = None →
       o (update_status u (o NowISOString)) = Some e →
       run o (handleSubmit st)
       = ([SetLoading true; GetUser;
           Insert "onboarding_responses" [response_row u (answers st)];
           NowISOString;
           Update "onboarding_status"
             [("is_completed", JBool true); ("completed_at", JStr (o NowISOString))]
             "user_id" (uid u);
           Toast {| title := "Error"; description := message e;
                    variant_ := Some destructive |};
           SetLoading false], Returned tt))
  ∧ (∀ u,
       o GetUser = Some u →
       o (insert_responses u (answers st)) = None →
       o (update_status u (o NowISOString)) = None →
       run o (handleSubmit st)
       = ([SetLoading true; GetUser;
           Insert "onboarding_responses" [response_row u (answers st)];
           NowISOString;
           Update "onboarding_status"
             [("is_completed", JBool true); ("completed_at", JStr (o NowISOString))]
             "user_id" (uid u);
           Navigate "/dashboard";
           SetLoading false], Returned tt)).
Proof.
  split_and!.
  - intros Hu. by rewrite run_handleSubmit, Hu.
  - intros u e Hu Hi. by rewrite run_handleSubmit, Hu, Hi.
  - intros u e Hu Hi Hup. by rewrite run_handleSubmit, Hu, Hi, Hup.
  - intros u Hu Hi Hup. by rewrite run_handleSubmit, Hu, Hi, Hup.
Qed.
End SubmitClaims.

Lemma submit_defaults_witness :
  with_user (User "u1") silent GetUser = Some (User "u1")
  ∧ Onboarding.answers (Onboarding.State 4 ∅ false) !! "daily_time" = None
  ∧ row_get (Onboarding.response_row (User "u1")
             (Onboarding.answers (Onboarding.State 4 ∅ false))) "daily_time"
    = Some (JStr "").
Proof.
  split_and!; [reflexivity..|].
  apply (submit_defaults (with_user (User "u1") silent)
           (Onboarding.State 4 ∅ false) (User "u1")); reflexivity.
Defined.

(** C5, as the spec has it, fails when the backend reports no session
    user: on the last question, with nothing answered, [handleSubmit]
    issues no insert at all. *)
Lemma submit_without_user :
  silent GetUser = None
  ∧ count is_insert
      (trace silent (Onboarding.handleSubmit (Onboarding.State 4 ∅ false)))
    ≠ 1%nat.
Proof. split; [reflexivity|]. vm_compute. discriminate. Qed.

(** ** The auth screen *)

Section AuthClaims.
Import Auth.
Variables (o : oracle) (formData : form_data).

(** What the sign-in flow does, by the answers of the backend. *)
Lemma run_sign_in :
  run o (handleAuth formData true)
  = (SetLoading true :: sign_in_call formData ::
     match o (sign_in_call formData) with
     | Some e => [ConsoleError "Auth error:" e; Toast (error_toast e)]
     | None =>
         GetUser ::
         match o GetUser with
         | None =>
             [ConsoleError "Auth error:" (new_Error "No user found after login");
              Toast (error_toast (new_Error "No user found after login"))]
         | Some u =>
             profile_query u ::
             match q_error (o (profile_query u)), q_data (o (profile_query u)) with
             | Some e, _ =>
                 [ConsoleError "Error fetching profile:" e;
                  ConsoleError "Auth error:" (new_Error "Failed to verify user profile");
                  Toast (error_toast (new_Error "Failed to verify user profile"))]
             | None, None =>
                 [ConsoleError "Auth error:"
                    (new_Error "Profile not found. Please contact support.");
                  Toast (error_toast
                           (new_Error "Profile not found. Please contact support."))]
             | None, Some _ => [Navigate "/dashboard"]
             end
         end
     end ++ [SetLoading false], Returned tt).
Proof.
  unfold handleAuth, sign_in. simpl.
  destruct (o (sign_in_call _)) as [e|]; simpl; [returns|].
  destruct (o GetUser) as [u|]; simpl; [|returns].
  destruct (o (profile_query u)) as [[d|] [e|]]; simpl; returns.
Qed.

(** What the sign-up flow does, by the answers of the backend. *)
Lemma run_sign_up :
  run o (handleAuth formData false)
  = (SetLoading true :: sign_up_call formData ::
     match su_error (o (sign_up_call formData)), su_user (o (sign_up_call formData)) with
     | Some e, _ =>
         if already_registered e
         then [Toast account_exists_toast]
         else [ConsoleError "Auth error:" e; Toast (error_toast e)]
     | None, None => []
     | None, Some u =>
         Sleep 2000 :: NowISOString :: insert_status u (o NowISOString) ::
         match o (insert_status u (o NowISOString)) with
         | Some e =>
             [ConsoleError "Error creating onboarding status:" e;
              ConsoleError "Auth error:" (new_Error "Failed to initialize onboarding");
              Toast (error_toast (new_Error "Failed to initialize onboarding"))]
         | None => [Toast account_created_toast; Navigate "/onboarding"]
         end
     end ++ [SetLoading false], Returned tt).
Proof.
  unfold handleAuth, sign_up. simpl.
  destruct (o (sign_up_call _)) as [[u|] [e|]]; simpl;
    try (destruct (already_registered e); simpl; returns); [|returns].
  destruct (o (insert_status _ _)) as [e|]; simpl; returns.
Qed.

(** The test of the inner [catch], in words: the message holds "User
    already registered", or holds "already exists" once lowered. *)
Lemma already_registered_spec (e : error) :
  already_registered e = true
  ↔ ∃ m, message e = Some m
         ∧ ((∃ a b, m = (a ++ "User already registered" ++ b)%string)
            ∨ (∃ a b, JsString.toLowerCase m = (a ++ "already exists" ++ b)%string)).
Proof.
  unfold already_registered. destruct (message e) as [m|].
  - rewrite orb_true_iff, !includes_spec. split.
    + intros H. by exists m.
    + by intros (? & [= <-] & H).
  - split; [done|]. by intros (? & [=] & _).
Qed.

(** C6. Sign-in where the credentials are accepted and the session has a
    user: if the profile query reports no error and no row, the notice
    "Profile not found. Please contact support." is shown and nothing
    navigates; if the query reports an error, the notice is "Failed to
    verify user profile" instead, and nothing navigates either. *)
Theorem profile_not_found (u : user) :
  o (sign_in_call formData) = None →
  o GetUser = Some u →
  (q_error (o (profile_query u)) = None →
   q_data (o (profile_query u)) = None →
   run o (handleAuth formData true)
   = ([SetLoading true;
       SignInWithPassword (email formData) (password formData);
       GetUser;
       SelectMaybeSingle "profiles" "*" "id" (uid u);
       ConsoleError "Auth error:"
         (new_Error "Profile not found. Please contact support.");
       Toast {| title := "Error";
                description := Some "Profile not found. Please contact support.";
                variant_ := Some destructive |};
       SetLoading false], Returned tt)
   ∧ count is_navigate (trace o (handleAuth formData true)) = 0%nat)
  ∧ (∀ e,
       q_error (o (profile_query u)) = Some e →
       run o (handleAuth formData true)
       = ([SetLoading true;
           SignInWithPassword (email formData) (password formData);
           GetUser;
           SelectMaybeSingle "profiles" "*" "id" (uid u);
           ConsoleError "Error fetching profile:" e;
           ConsoleError "Auth error:" (new_Error "Failed to verify user profile");
           Toast {| title := "Error";
                    description := Some "Failed to verify user profile";
                    variant_ := Some destructive |};
           SetLoading false], Returned tt)
       ∧ count is_navigate (trace o (handleAuth formData true)) = 0%nat).
Proof.
  intros Hin Hu. unfold trace. rewrite run_sign_in, Hin, Hu. split.
  - intros -> ->. done.
  - intros e ->. done.
Qed.

(** C7, as the code has it. Sign-up where the backend reports an error
    whose message says that the account exists: the inner [catch] shows
    one notice, titled "Account Exists", with the text "An account with
    this email already exists. Please sign in instead." and the
    destructive variant, and the handler returns; the outer [catch] is not
    entered (no "Auth error:" log, no "Error" notice) and nothing
    navigates. *)
Theorem account_exists (e : error) :
  su_error (o (sign_up_call formData)) = Some e →
  already_registered e = true →
  run o (handleAuth formData false)
  = ([SetLoading true;
      SignUp (email formData) (password formData) (username formData)
             (fullName formData);
      Toast {| title := "Account Exists";
               description :=
                 Some "An account with this email already exists. Please sign in instead.";
               variant_ := Some destructive |};
      SetLoading false], Returned tt)
  ∧ count is_navigate (trace o (handleAuth formData false)) = 0%nat.
Proof.
  intros He Hreg. unfold trace. by rewrite run_sign_up, He, Hreg.
Qed.

(** C8. The sign-up flow issues its calls one after the other: the
    sign-up call comes first; when it reports a user and no error, the
    wait of 2000 ms follows, then the insert of the onboarding status of
    that user with [is_completed] false, and no other insert; when it
    reports an error or no user, no insert is issued at all. *)
Theorem sign_up_in_order :
  (∃ rest, trace o (handleAuth formData false)
           = SetLoading true ::
             SignUp (email formData) (password formData) (username formData)
                    (fullName formData) :: rest)
  ∧ (∀ u,
       su_error (o (sign_up_call formData)) = None →
       su_user (o (sign_up_call formData)) = Some u →
       ∃ rest,
         trace o (handleAuth formData false)
         = ([SetLoading true;
             SignUp (email formData) (password formData) (username formData)
                    (fullName formData);
             Sleep 2000;
             NowISOString;
             Insert "onboarding_status"
               [[("user_id", JStr (uid u)); ("is_completed", JBool false);
                 ("created_at", JStr (o NowISOString))]]] ++ rest)%list
         ∧ count is_insert rest = 0%nat)
  ∧ (su_error (o (sign_up_call formData)) ≠ None
     ∨ su_user (o (sign_up_call formData)) = None →
     count is_insert (trace o (handleAuth formData false)) = 0%nat).
Proof.
  unfold trace. rewrite run_sign_up. split_and!.
  - eexists. reflexivity.
  - intros u -> ->. eexists. split; [reflexivity|].
    by destruct (o (insert_status _ _)).
  - destruct (su_error _) as [e|].
    + intros _. simpl. by destruct (already_registered e).
    + intros [?| ->]; done.
Qed.

(** C9. Sign-up where the backend reports neither an error nor a user:
    after the sign-up call the handler only resets the loading flag; no
    insert, no notice, no navigation. *)
Theorem sign_up_without_user :
  su_error (o (sign_up_call formData)) = None →
  su_user (o (sign_up_call formData)) = None →
  run o (handleAuth formData false)
  = ([SetLoading true;
      SignUp (email formData) (password formData) (username formData)
             (fullName formData);
      SetLoading false], Returned tt)
  ∧ ∀ loading, commit apply_call loading (trace o (handleAuth formData false)) = false.
Proof.
  intros He Hu. unfold trace. by rewrite run_sign_up, He, Hu.
Qed.
End AuthClaims.

Lemma profile_not_found_witness :
  silent (Auth.sign_in_call (Auth.FormData "ada@example.org" "pw" None None None)) = None
  ∧ with_user (User "u1") silent GetUser = Some (User "u1")
  ∧ count is_navigate
      (trace (with_user (User "u1") silent)
         (Auth.handleAuth (Auth.FormData "ada@example.org" "pw" None None None) true))
    = 0%nat.
Proof.
  split_and!; [reflexivity..|].
  apply (profile_not_found (with_user (User "u1") silent)
           (Auth.FormData "ada@example.org" "pw" None None None) (User "u1"));
    reflexivity.
Defined.

Lemma account_exists_witness :
  Auth.already_registered (Error (Some "User already registered")) = true
  ∧ count is_navigate
      (trace (with_sign_up (SignupResult None (Some (Error (Some "User already registered"))))
                silent)
         (Auth.handleAuth (Auth.FormData "ada@example.org" "pw" (Some "pw") (Some "ada") None)
            false))
    = 0%nat.
Proof.
  split; [reflexivity|].
  apply (account_exists
           (with_sign_up (SignupResult None (Some (Error (Some "User already registered"))))
              silent)
           (Auth.FormData "ada@example.org" "pw" (Some "pw") (Some "ada") None)
           (Error (Some "User already registered"))); reflexivity.
Defined.

(** C7, as the spec has it, fails on the kind of the notice: for a sign-up
    error that says "User already registered", the one notice shown is not
    an informational one; it has the destructive variant of the error
    notices. *)
Lemma account_exists_notice_is_destructive :
  Auth.already_registered (Error (Some "User already registered")) = true
  ∧ ¬ ∃ t, In (Toast t)
             (trace (with_sign_up
                       (SignupResult None (Some (Error (Some "User already registered"))))
                       silent)
                (Auth.handleAuth
                   (Auth.FormData "ada@example.org" "pw" (Some "pw") (Some "ada") None)
                   false))
           ∧ spec_informational t.
Proof.
  split; [reflexivity|]. intros (t & Hin & Hinf). simpl in Hin.
  destruct Hin as [Hin|[Hin|[Hin|[Hin|[]]]]]; try discriminate Hin.
  injection Hin as <-. by apply Hinf.
Qed.

Lemma sign_up_in_order_witness :
  ∃ rest,
    trace (with_sign_up (SignupResult (Some (User "u1")) None) silent)
      (Auth.handleAuth (Auth.FormData "ada@example.org" "pw" (Some "pw") (Some "ada") None)
         false)
    = ([SetLoading true;
        SignUp "ada@example.org" "pw" (Some "ada") None;
        Sleep 2000;
        NowISOString;
        Insert "onboarding_status"
          [[("user_id", JStr "u1"); ("is_completed", JBool false);
            ("created_at", JStr "2026-01-01T00:00:00.000Z")]]] ++ rest)%list
    ∧ count is_insert rest = 0%nat.
Proof.
  apply (proj1 (proj2
           (sign_up_in_order (with_sign_up (SignupResult (Some (User "u1")) None) silent)
              (Auth.FormData "ada@example.org" "pw" (Some "pw") (Some "ada") None)))
           (User "u1")); reflexivity.
Defined.

Lemma sign_up_without_user_witness :
  su_user (silent (Auth.sign_up_call (Auth.FormData "ada@example.org" "pw" None None None)))
  = None
  ∧ run silent (Auth.handleAuth (Auth.FormData "ada@example.org" "pw" None None None) false)
    = ([SetLoading true; SignUp "ada@example.org" "pw" None None; SetLoading false],
       Returned tt).
Proof.
  split; [reflexivity|].
  apply (sign_up_without_user silent
           (Auth.FormData "ada@example.org" "pw" None None None)); reflexivity.
Defined.

Lemma submit_calls_witness :
  with_user (User "u1") silent GetUser = Some (User "u1")
  ∧ run (with_user (User "u1") silent) (Onboarding.handleSubmit (Onboarding.State 4 ∅ false))
    = ([SetLoading true; GetUser;
        Insert "onboarding_responses" [Onboarding.response_row (User "u1") ∅];
        NowISOString;
        Update "onboarding_status"
          [("is_completed", JBool true);
           ("completed_at", JStr "2026-01-01T00:00:00.000Z")]
          "user_id" "u1";
        Navigate "/dashboard";
        SetLoading false], Returned tt).
Proof.
  split; [reflexivity|].
  apply (proj2 (proj2 (proj2
           (submit_calls (with_user (User "u1") silent) (Onboarding.State 4 ∅ false))))
           (User "u1")); reflexivity.
Defined.

(** * Further properties of the auth screen *)

Section AuthMore.
Import Auth.
Variables (o : oracle) (formData : form_data).

(** X1. Whatever the backend answers and whichever flow runs, no exception
    leaves [handleAuth]: it returns; its first call sets the loading flag,
    its last call resets it, and it makes no other change to the
    component's state. *)
Theorem handleAuth_settles (isLogin : bool) :
  (run o (handleAuth formData isLogin)).2 = Returned tt
  ∧ head (trace o (handleAuth formData isLogin)) = Some (SetLoading true)
  ∧ last (trace o (handleAuth formData isLogin)) = Some (SetLoading false)
  ∧ List.filter (λ c, negb (is_external c)) (trace o (handleAuth formData isLogin))
    = [SetLoading true; SetLoading false].
Proof.
  unfold trace. destruct isLogin.
  - rewrite run_sign_in.
    destruct (o (sign_in_call _)) as [e|]; [done|].
    destruct (o GetUser) as [u|]; [|done].
    by destruct (o (profile_query u)) as [[d|] [e|]].
  - rewrite run_sign_up.
    destruct (o (sign_up_call _)) as [[u|] [e|]]; simpl;
      try (by destruct (already_registered e)); [|done].
    by destruct (o (insert_status _ _)).
Qed.

(** X2. Sign-in ends in exactly one of two ways: one navigation to the
    dashboard and no notice, when the credentials are accepted, the
    session has a user and the profile query gives a row and no error; or
    one notice and no navigation, in every other case. *)
Theorem sign_in_outcomes :
  (o (sign_in_call formData) = None
   ∧ (∃ u, o GetUser = Some u
           ∧ q_error (o (profile_query u)) = None
           ∧ is_Some (q_data (o (profile_query u))))
   ∧ List.filter (λ c, is_navigate c || is_toast c) (trace o (handleAuth formData true))
     = [Navigate "/dashboard"])
  ∨ (¬ (o (sign_in_call formData) = None
        ∧ ∃ u, o GetUser = Some u
               ∧ q_error (o (profile_query u)) = None
               ∧ is_Some (q_data (o (profile_query u))))
     ∧ ∃ e, List.filter (λ c, is_navigate c || is_toast c)
              (trace o (handleAuth formData true))
            = [Toast (error_toast e)]).
Proof.
  unfold trace. rewrite run_sign_in.
  destruct (o (sign_in_call _)) as [e|] eqn:Hin.
  { right. split; [by intros [? _]|]. by exists e. }
  destruct (o GetUser) as [u|] eqn:Hu.
  2:{ right. split; [by intros (_ & ? & ? & _)|]. by eexists. }
  destruct (o (profile_query u)) as [[d|] [e|]] eqn:Hq; simpl.
  - right. split; [|by eexists].
    intros (_ & u' & [= <-] & He & _). by rewrite Hq in He.
  - left. split_and!; [done| |done]. exists u. by rewrite Hq.
  - right. split; [|by eexists].
    intros (_ & u' & [= <-] & He & _). by rewrite Hq in He.
  - right. split; [|by eexists].
    intros (_ & u' & [= <-] & _ & [? Hd]). by rewrite Hq in Hd.
Qed.

(** X3. Sign-in with rejected credentials stops there: the session user is
    not asked for and no profile is queried. The notice carries the
    backend's message, or "An error occurred during authentication" when
    the error has no message or an empty one. *)
Theorem sign_in_rejected (e : error) :
  o (sign_in_call formData) = Some e →
  run o (handleAuth formData true)
  = ([SetLoading true;
      SignInWithPassword (email formData) (password formData);
      ConsoleError "Auth error:" e;
      Toast {| title := "Error";
               description :=
                 Some (match message e with
                       | Some m => if bool_decide (m = "") then
                                     "An error occurred during authentication"
                                   else m
                       | None => "An error occurred during authentication"
                       end);
               variant_ := Some destructive |};
      SetLoading false], Returned tt).
Proof.
  intros He. rewrite run_sign_in, He. simpl. do 6 f_equal.
  unfold error_toast, message_or. do 2 f_equal.
  destruct (message e) as [m|]; [|done].
  case_bool_decide as Hm; [by subst|].
  by apply String.eqb_neq in Hm as ->.
Qed.

(** X4. Sign-up navigates, once and to the onboarding page, exactly when
    the backend reports a user and no error and the status insert
    succeeds; the success notice comes right before it. *)
Theorem sign_up_navigates_iff :
  (su_error (o (sign_up_call formData)) = None
   ∧ ∃ u, su_user (o (sign_up_call formData)) = Some u
          ∧ o (insert_status u (o NowISOString)) = None)
  ↔ List.filter (λ c, is_navigate c || is_toast c) (trace o (handleAuth formData false))
    = [Toast {| title := "Success";
                description :=
                  Some "Account created successfully! Please check your email to verify your account.";
                variant_ := None |};
       Navigate "/onboarding"].
Proof.
  unfold trace. rewrite run_sign_up.
  destruct (o (sign_up_call _)) as [[u|] [e|]] eqn:Hs; simpl.
  - split; [by intros [? _]|]. by destruct (already_registered e).
  - destruct (o (insert_status _ _)) as [e|] eqn:Hi; simpl.
    + split; [|done]. intros (_ & u' & [= <-] & Hi'). by rewrite Hi in Hi'.
    + split; [done|]. intros _. split; [done|]. by exists u.
  - split; [by intros [? _]|]. by destruct (already_registered e).
  - split; [|done]. by intros (_ & ? & ? & _).
Qed.

(** X5. When the sign-up call succeeds and the status insert fails, the
    notice is "Failed to initialize onboarding" whatever the backend's
    error says; the backend's error is only logged. Even an insert error
    whose message says "already exists" does not give the account-exists
    notice. *)
Theorem sign_up_insert_failure (u : user) (e : error) :
  su_error (o (sign_up_call formData)) = None →
  su_user (o (sign_up_call formData)) = Some u →
  o (insert_status u (o NowISOString)) = Some e →
  run o (handleAuth formData false)
  = ([SetLoading true;
      SignUp (email formData) (password formData) (username formData)
             (fullName formData);
      Sleep 2000;
      NowISOString;
      Insert "onboarding_status"
        [[("user_id", JStr (uid u)); ("is_completed", JBool false);
          ("created_at", JStr (o NowISOString))]];
      ConsoleError "Error creating onboarding status:" e;
      ConsoleError "Auth error:" (new_Error "Failed to initialize onboarding");
      Toast {| title := "Error";
               description := Some "Failed to initialize onboarding";
               variant_ := Some destructive |};
      SetLoading false], Returned tt).
Proof. intros He Hu Hi. by rewrite run_sign_up, He, Hu, Hi. Qed.

(** X6. A sign-up error that does not pass the account-exists test reaches
    the outer handler: it is logged and shown in an "Error" notice with
    the backend's message (the fixed text when there is none), and nothing
    is inserted. *)
Theorem sign_up_other_error (e : error) :
  su_error (o (sign_up_call formData)) = Some e →
  already_registered e = false →
  run o (handleAuth formData false)
  = ([SetLoading true;
      SignUp (email formData) (password formData) (username formData)
             (fullName formData);
      ConsoleError "Auth error:" e;
      Toast {| title := "Error";
               description :=
                 Some (match message e with
                       | Some m => if bool_decide (m = "") then
                                     "An error occurred during authentication"
                                   else m
                       | None => "An error occurred during authentication"
                       end);
               variant_ := Some destructive |};
      SetLoading false], Returned tt).
Proof.
  intros He Hreg.
  rewrite run_sign_up, He, Hreg. simpl. do 6 f_equal.
  unfold error_toast, message_or. do 2 f_equal.
  destruct (message e) as [m|]; [|done].
  case_bool_decide as Hm; [by subst|].
  by apply String.eqb_neq in Hm as ->.
Qed.

(** X7. Signing in only reads: whatever the backend answers, the sign-in
    flow issues no sign-up, no insert and no update. *)
Theorem sign_in_never_writes :
  count is_write (trace o (handleAuth formData true)) = 0%nat.
Proof.
  unfold trace. rewrite run_sign_in.
  destruct (o (sign_in_call _)) as [e|]; [done|].
  destruct (o GetUser) as [u|]; [|done].
  by destruct (o (profile_query u)) as [[d|] [e|]].
Qed.
End AuthMore.

(** * Further properties of the questionnaire *)

Lemma toggles_index (o : oracle) (st : Onboarding.state) (opts : list string) :
  Onboarding.currentQuestion (Onboarding.toggles o st opts)
  = Onboarding.currentQuestion st.
Proof.
  induction opts as [|x opts IH] using rev_ind; [done|].
  rewrite toggles_snoc.
  by destruct (step_toggleOption o (Onboarding.toggles o st opts) x) as (a & -> & _).
Qed.

Lemma questions_at_elem (i : Z) (q : Onboarding.question_def) :
  Onboarding.questions_at i = Some q →
  q ∈ Onboarding.questions ∧ 0 ≤ i ≤ Onboarding.questions_length - 1.
Proof.
  unfold Onboarding.questions_at. destruct (i <? 0) eqn:E; [done|].
  apply Z.ltb_ge in E. intros H. split; [by eapply list_elem_of_lookup_2|].
  apply lookup_lt_Some in H. unfold Onboarding.questions_length. lia.
Qed.

(** The keys of the questions are pairwise distinct. *)
Lemma key_inj (q q' : Onboarding.question_def) :
  q ∈ Onboarding.questions → q' ∈ Onboarding.questions →
  Onboarding.key q = Onboarding.key q' → q = q'.
Proof.
  unfold Onboarding.questions. rewrite !elem_of_cons, !elem_of_nil.
  intros H H'.
  repeat (destruct H as [->|H]; [|]); try done;
    repeat (destruct H' as [->|H']; [|]); try done.
Qed.

Section OnboardingMore.
Import Onboarding.
Variables (o : oracle) (st : state).

(** X8. Whatever the backend answers, no exception leaves [handleSubmit]:
    it returns; its first call sets the loading flag, its last call resets
    it, and it makes no other change to the component's state, so the
    answers are still there after a failed submission. *)
Theorem handleSubmit_settles :
  (run o (handleSubmit st)).2 = Returned tt
  ∧ head (trace o (handleSubmit st)) = Some (SetLoading true)
  ∧ last (trace o (handleSubmit st)) = Some (SetLoading false)
  ∧ List.filter (λ c, negb (is_external c)) (trace o (handleSubmit st))
    = [SetLoading true; SetLoading false]
  ∧ answers (commit apply_call st (trace o (handleSubmit st))) = answers st
  ∧ currentQuestion (commit apply_call st (trace o (handleSubmit st)))
    = currentQuestion st.
Proof.
  unfold trace. rewrite run_handleSubmit.
  destruct (o GetUser) as [u|]; [|done].
  destruct (o (insert_responses _ _)) as [e|]; [done|].
  by destruct (o (update_status _ _)) as [e|].
Qed.

(** X9. On a single-select question the last toggle wins, however many
    came before, and toggling the chosen option again does not clear it:
    once answered, the question stays answered. *)
Theorem single_select_last_wins (q : question_def) (opts : list string) (x : string) :
  questions_at (currentQuestion st) = Some q →
  singleSelect q = true →
  answers (toggles o st (opts ++ [x])) !! key q = Some (JStr x).
Proof.
  intros Hq Hs. rewrite toggles_snoc.
  rewrite (step_toggle_single o (toggles o st opts) q); [|by rewrite toggles_index|done].
  apply lookup_insert_eq.
Qed.

(** X10. On a multi-select question whose selection is the array [l],
    toggling an option twice in a row gives [l] back when the option was
    not selected; when it was, the option moves to the end of the array
    (the selection is the same set, in another order when [l] has no
    repetition). *)
Theorem toggle_twice (o' : oracle) (q : question_def) (x : string) (l : list string) :
  questions_at (currentQuestion st) = Some q →
  singleSelect q = false → isText q = false →
  selection st (key q) = JArr l →
  selection (step o' (step o st (toggleOption x)) (toggleOption x)) (key q)
  = JArr (if bool_decide (x ∈ l) then (filter (λ a, a ≠ x) l ++ [x])%list else l)
  ∧ (NoDup l →
     (if bool_decide (x ∈ l) then (filter (λ a, a ≠ x) l ++ [x])%list else l) ≡ₚ l).
Proof.
  intros Hq Hs Ht Hl.
  rewrite (step_toggle_multi o st q Hq x l Hs Ht Hl).
  rewrite (step_toggle_multi o'
             (State (currentQuestion st)
                (<[key q := JArr (if bool_decide (x ∈ l)
                                  then filter (λ a, a ≠ x) l
                                  else (l ++ [x])%list)]> (answers st))
                (loading st))
             q Hq x _ Hs Ht
             ltac:(apply selection_stored; simpl; apply lookup_insert_eq)).
  split.
  - apply selection_stored. simpl. rewrite lookup_insert_eq. do 2 f_equal.
    destruct (decide (x ∈ l)) as [Hx|Hx].
    + rewrite !(bool_decide_true (x ∈ l)) by done.
      rewrite bool_decide_false; [done|]. rewrite list_elem_of_filter. tauto.
    + rewrite !(bool_decide_false (x ∈ l)) by done.
      rewrite bool_decide_true by (apply elem_of_app; right; by left).
      rewrite filter_app, (filter_cons_False _ x []) by tauto.
      rewrite filter_nil, app_nil_r. clear -Hx. induction l as [|y l IH]; [done|].
      rewrite not_elem_of_cons in Hx. destruct Hx as [Hxy Hx].
      rewrite filter_cons_True by done. by rewrite IH.
  - intros Hnd. case_bool_decide as Hx; [|done].
    apply NoDup_Permutation; [|done|].
    + apply NoDup_app. split_and!; [by apply NoDup_filter| |apply NoDup_singleton].
      intros y [Hy _]%list_elem_of_filter ->%list_elem_of_singleton. done.
    + intros y. rewrite elem_of_app, list_elem_of_filter, list_elem_of_singleton.
      destruct (decide (y = x)) as [->|]; tauto.
Qed.

(** X11. Toggling options that are all different, on a multi-select
    question with no answer yet, stores them in the order they were
    toggled. *)
Theorem toggles_keep_click_order (q : question_def) (opts : list string) :
  questions_at (currentQuestion st) = Some q →
  singleSelect q = false → isText q = false →
  selection st (key q) = JArr [] →
  NoDup opts →
  selection (toggles o st opts) (key q) = JArr opts.
Proof.
  intros Hq Hs Ht H0. induction opts as [|x opts IH] using rev_ind; [done|].
  intros [Hnd [Hx _]]%NoDup_app. rewrite toggles_snoc.
  rewrite (step_toggle_multi o (toggles o st opts) q
             ltac:(by rewrite toggles_index) x opts Hs Ht (IH Hnd)).
  apply selection_stored. simpl. rewrite lookup_insert_eq.
  rewrite bool_decide_false; [done|].
  intros Hin. apply (Hx x Hin). by left.
Qed.

(** X12. Going forward and then back, or back and then forward, returns
    to the very same state wherever both controls are shown: the answers
    given so far are kept while moving between questions. *)
Theorem navigation_round_trip (o' : oracle) :
  (0 ≤ currentQuestion st < questions_length - 1 →
   step o' (step o st advance) retreat = st)
  ∧ (0 < currentQuestion st ≤ questions_length - 1 →
     step o' (step o st retreat) advance = st).
Proof.
  split; intros Hi.
  - rewrite (step_advance o st).
    destruct (Z.ltb_spec (currentQuestion st) (questions_length - 1)); [|lia].
    rewrite step_retreat. simpl.
    destruct (Z.ltb_spec 0 (currentQuestion st + 1)); [|lia].
    destruct st. simpl. f_equal. lia.
  - rewrite (step_retreat o st).
    destruct (Z.ltb_spec 0 (currentQuestion st)); [|lia].
    rewrite step_advance. simpl.
    destruct (Z.ltb_spec (currentQuestion st - 1) (questions_length - 1)); [|lia].
    destruct st. simpl. f_equal. lia.
Qed.

(** X13. Answering and moving between questions is local: a handler
    reaches outside the component (backend, router, notices) exactly when
    it is the control on the right, pressed on or past the last question
    while no submission is running. *)
Theorem external_calls_iff (ev : event) :
  existsb is_external (trace o (handler st ev)) = true
  ↔ ev = advance ∧ questions_length - 1 ≤ currentQuestion st ∧ loading st = false.
Proof.
  destruct ev as [x|v| |]; simpl.
  - split; [|by intros [? _]]. unfold trace, handleOptionToggle.
    destruct (questions_at _) as [q|]; [|done].
    destruct (singleSelect q); [done|].
    destruct (isText q); simpl; [done|].
    destruct (js_or _ _) as [s|l|b]; [by destruct (JsString.includes s x)|done..].
  - split; [|by intros [? _]]. unfold trace, handleTextInput.
    by destruct (questions_at _) as [q|].
  - unfold next_control.
    destruct (Z.ltb_spec (currentQuestion st) (questions_length - 1)).
    { split; [done|]. intros (_ & ? & _). lia. }
    destruct (loading st); [split; [done|by intros (_ & _ & ?)]|].
    unfold trace. rewrite run_handleSubmit. simpl. split; [|done].
    intros _. split_and!; [done|lia|done].
  - split; [|by intros [? _]]. unfold trace, previous_control.
    by destruct (0 <? _).
Qed.
End OnboardingMore.

Lemma step_setText (o : oracle) (st : Onboarding.state) (q : Onboarding.question_def)
    (value : string) :
  Onboarding.questions_at (Onboarding.currentQuestion st) = Some q →
  Onboarding.step o st (Onboarding.setText value)
  = {| Onboarding.currentQuestion := Onboarding.currentQuestion st;
       Onboarding.answers :=
         <[Onboarding.key q := JStr value]> (Onboarding.answers st);
       Onboarding.loading := Onboarding.loading st |}.
Proof.
  intros Hq. unfold Onboarding.step, Onboarding.handler, Onboarding.handleTextInput.
  by rewrite Hq.
Qed.

(** ** The view and what it offers *)

Section View.
Import Onboarding.
Variables (st : state).

(** What a render that did not throw shows. *)
Lemma render_Some (v : view) :
  render st = Some v →
  ∃ q, questions_at (currentQuestion st) = Some q
       ∧ previous v = (0 <? currentQuestion st)
       ∧ right_ v = (if currentQuestion st <? questions_length - 1
                     then NextButton
                     else CompleteButton (loading st)
                            (if loading st then "Submitting..." else "Complete"))
       ∧ (if isText q
          then body v = TextArea (js_or (answers st !! key q) (JStr ""))
          else ∃ opts boxes,
                 options q = Some opts ∧ body v = OptionBoxes boxes
                 ∧ boxes.*1 = opts
                 ∧ Forall (λ b, checked st q b.1 = Some b.2) boxes).
Proof.
  unfold render. destruct (questions_at _) as [q|]; [simpl|done].
  destruct (isText q) eqn:Ht; simpl.
  { intros [= <-]. exists q. rewrite Ht. by split_and!. }
  destruct (options q) as [opts|] eqn:Hopts; [simpl|done].
  destruct (mapM _ opts) as [boxes|] eqn:Hm; [simpl|done].
  intros [= <-]. exists q. rewrite Ht. split_and!; [done..|].
  exists opts, boxes. split_and!; [done|done| |].
  - eapply mapM_fmap_Some_inv; [done|]. intros x y Hy. by simplify_option_eq.
  - apply mapM_Some_1 in Hm. clear -Hm.
    induction Hm as [|x b opts boxes Hb _ IH]; [done|].
    constructor; [|done]. by simplify_option_eq.
Qed.

(** A toggle is offered only for an option of the current question, which
    is then not the free-text one; text input only on the free-text one. *)
Lemma offers_toggleOption (v : view) (x : string) :
  render st = Some v → offers v (toggleOption x) = true →
  ∃ q opts, questions_at (currentQuestion st) = Some q
            ∧ isText q = false ∧ options q = Some opts ∧ x ∈ opts.
Proof.
  intros (q & Hq & _ & _ & Hb)%render_Some Ho. exists q.
  unfold offers in Ho. destruct (isText q).
  - by rewrite Hb in Ho.
  - destruct Hb as (opts & boxes & Hopts & Hb & <- & _). exists (boxes.*1).
    rewrite Hb in Ho. split_and!; [done..|]. by apply bool_decide_eq_true in Ho.
Qed.

Lemma offers_setText (v : view) (value : string) :
  render st = Some v → offers v (setText value) = true →
  ∃ q, questions_at (currentQuestion st) = Some q ∧ isText q = true.
Proof.
  intros (q & Hq & _ & _ & Hb)%render_Some Ho. exists q. split; [done|].
  unfold offers in Ho. destruct (isText q); [done|].
  destruct Hb as (opts & boxes & _ & Hb & _). by rewrite Hb in Ho.
Qed.
End View.

(** The shape of the questions: the free-text one is not single-select;
    the others have options. *)
Lemma question_shape (q : Onboarding.question_def) :
  q ∈ Onboarding.questions →
  (Onboarding.isText q = true → Onboarding.singleSelect q = false)
  ∧ (Onboarding.isText q = false → is_Some (Onboarding.options q)).
Proof.
  unfold Onboarding.questions. rewrite !elem_of_cons, !elem_of_nil.
  intros H.
  repeat (destruct H as [->|H]; [split; [done|intros ?; try done; by eexists]|]).
  done.
Qed.

Lemma answers_ok_insert (a : gmap string jsval) (q : Onboarding.question_def)
    (v : jsval) :
  Onboarding.answers_ok a → q ∈ Onboarding.questions → Onboarding.answer_ok q v →
  Onboarding.answers_ok (<[Onboarding.key q := v]> a).
Proof.
  intros Ha Hq Hv k w. rewrite lookup_insert. case_decide as Hk.
  - intros [= <-]. by exists q.
  - apply Ha.
Qed.

(** What the view lets through keeps every stored value in the shape its
    question writes. *)
Lemma ui_step_answers_ok (o : oracle) (st : Onboarding.state) (ev : Onboarding.event) :
  Onboarding.answers_ok (Onboarding.answers st) →
  Onboarding.answers_ok (Onboarding.answers (Onboarding.ui_step o st ev)).
Proof.
  intros Ha. unfold Onboarding.ui_step.
  destruct (Onboarding.render st) as [v|] eqn:Hr; [|done].
  destruct (Onboarding.offers v ev) eqn:Ho; [|done].
  destruct ev as [x|value| |].
  - destruct (offers_toggleOption st v x Hr Ho) as (q & opts & Hq & Ht & Hopts & Hx).
    destruct (questions_at_elem _ _ Hq) as [Hin _].
    destruct (Onboarding.singleSelect q) eqn:Hs.
    + rewrite (step_toggle_single o st q Hq x Hs). simpl.
      apply answers_ok_insert; [done..|].
      unfold Onboarding.answer_ok. rewrite Hs, Hopts. by exists x.
    + assert (∃ l, Onboarding.selection st (Onboarding.key q) = JArr l
                   ∧ NoDup l ∧ l ⊆ opts) as (l & Hl & Hnd & Hsub).
      { unfold Onboarding.selection.
        destruct (Onboarding.answers st !! Onboarding.key q) as [w|] eqn:Hw.
        - destruct (Ha _ _ Hw) as (q' & Hin' & Hk & Hok).
          apply (key_inj q' q Hin' Hin) in Hk as ->.
          unfold Onboarding.answer_ok in Hok. rewrite Hs, Ht, Hopts in Hok.
          destruct Hok as (l & -> & ? & ?). by exists l.
        - exists []. split_and!; [done|constructor|apply list_subseteq_nil]. }
      rewrite (step_toggle_multi o st q Hq x l Hs Ht Hl). simpl.
      apply answers_ok_insert; [done..|].
      unfold Onboarding.answer_ok. rewrite Hs, Ht, Hopts. simpl.
      eexists. split; [done|]. case_bool_decide as Hxl.
      * split; [by apply NoDup_filter|].
        intros y [_ Hy]%list_elem_of_filter. by apply Hsub.
      * split.
        -- apply NoDup_app. split_and!; [done| |apply NoDup_singleton].
           intros y Hy ->%list_elem_of_singleton. done.
        -- intros y [Hy| ->%list_elem_of_singleton]%elem_of_app; [by apply Hsub|done].
  - destruct (offers_setText st v value Hr Ho) as (q & Hq & Ht).
    destruct (questions_at_elem _ _ Hq) as [Hin _].
    rewrite (step_setText o st q value Hq). simpl.
    apply answers_ok_insert; [done..|].
    unfold Onboarding.answer_ok.
    rewrite (proj1 (question_shape q Hin) Ht), Ht. by exists value.
  - by rewrite step_advance; destruct (_ <? _).
  - by rewrite step_retreat; destruct (_ <? _).
Qed.

Lemma ui_session_snoc (st : Onboarding.state) (evs : list (oracle * Onboarding.event))
    (o : oracle) (ev : Onboarding.event) :
  Onboarding.ui_session st (evs ++ [(o, ev)])
  = Onboarding.ui_step o (Onboarding.ui_session st evs) ev.
Proof. unfold Onboarding.ui_session. by rewrite foldl_app. Qed.

Lemma ui_async_step_inv (o : oracle) (c : Onboarding.config)
    (e : Onboarding.occurrence) :
  Onboarding.answers_ok (Onboarding.answers (Onboarding.ui c))
  ∧ 0 ≤ Onboarding.currentQuestion (Onboarding.ui c) ≤ Onboarding.questions_length - 1
  ∧ Forall task_keeps (Onboarding.inflight c) →
  Onboarding.answers_ok
    (Onboarding.answers (Onboarding.ui (Onboarding.ui_async_step o c e)))
  ∧ 0 ≤ Onboarding.currentQuestion (Onboarding.ui (Onboarding.ui_async_step o c e))
      ≤ Onboarding.questions_length - 1
  ∧ Forall task_keeps (Onboarding.inflight (Onboarding.ui_async_step o c e)).
Proof.
  intros (Ha & Hi & Hk). destruct e as [ev|n]; unfold Onboarding.ui_async_step.
  - destruct (Onboarding.render (Onboarding.ui c)) as [v|] eqn:Hr; [|done].
    destruct (Onboarding.offers v ev) eqn:Ho; [|done].
    split; [|by apply async_step_inv].
    destruct (async_user_step o c ev) as [[-> _]|(_ & _ & _ & -> & _)]; [|done].
    pose proof (ui_step_answers_ok o (Onboarding.ui c) ev Ha) as H.
    unfold Onboarding.ui_step in H. by rewrite Hr, Ho in H.
  - destruct (async_settle_step o c n Hk) as (Hq & Hans & ?).
    rewrite Hq, Hans. done.
Qed.

Lemma ui_async_session_snoc (c : Onboarding.config)
    (es : list (oracle * Onboarding.occurrence)) (o : oracle)
    (e : Onboarding.occurrence) :
  Onboarding.ui_async_session c (es ++ [(o, e)])
  = Onboarding.ui_async_step o (Onboarding.ui_async_session c es) e.
Proof. unfold Onboarding.ui_async_session. by rewrite foldl_app. Qed.

Lemma ui_async_session_inv (es : list (oracle * Onboarding.occurrence)) :
  Onboarding.answers_ok
    (Onboarding.answers (Onboarding.ui (Onboarding.ui_async_session Onboarding.start es)))
  ∧ 0 ≤ Onboarding.currentQuestion
          (Onboarding.ui (Onboarding.ui_async_session Onboarding.start es))
      ≤ Onboarding.questions_length - 1
  ∧ Forall task_keeps
      (Onboarding.inflight (Onboarding.ui_async_session Onboarding.start es)).
Proof.
  induction es as [|[o e] es IH] using rev_ind.
  - split_and!; [by intros k v ?|by vm_compute..|constructor].
  - rewrite ui_async_session_snoc. by apply ui_async_step_inv.
Qed.

(** What holds of every state the view can lead to, a submission in flight
    or not. *)
Lemma ui_reachable_inv (st : Onboarding.state) :
  Onboarding.ui_reachable st →
  Onboarding.answers_ok (Onboarding.answers st)
  ∧ 0 ≤ Onboarding.currentQuestion st ≤ Onboarding.questions_length - 1.
Proof.
  intros [es ->]. destruct (ui_async_session_inv es) as (? & ? & _). done.
Qed.

(** The states reached with every submission run to its end are among
    them. *)
Lemma ui_session_reachable (evs : list (oracle * Onboarding.event)) :
  Onboarding.ui_reachable (Onboarding.ui_session Onboarding.initial evs).
Proof.
  induction evs as [|[o ev] evs IH] using rev_ind; [by exists []|].
  rewrite ui_session_snoc. destruct IH as [es Hes].
  set (c := Onboarding.ui_async_session Onboarding.start es) in *.
  rewrite Hes. unfold Onboarding.ui_step.
  destruct (Onboarding.render (Onboarding.ui c)) as [v|] eqn:Hr; [|by exists es].
  destruct (Onboarding.offers v ev) eqn:Ho; [|by exists es].
  destruct (async_user_step o c ev) as [[Hui _]|(-> & Hi & _)].
  - exists (es ++ [(o, Onboarding.by_user ev)])%list.
    rewrite ui_async_session_snoc. fold c. unfold Onboarding.ui_async_step.
    by rewrite Hr, Ho, Hui.
  - exists es. rewrite step_advance.
    by destruct (Z.ltb_spec (Onboarding.currentQuestion (Onboarding.ui c))
                   (Onboarding.questions_length - 1)); [lia|].
Qed.

Lemma questions_at_is_Some (i : Z) :
  0 ≤ i ≤ Onboarding.questions_length - 1 → is_Some (Onboarding.questions_at i).
Proof.
  intros Hi. unfold Onboarding.questions_at.
  destruct (Z.ltb_spec i 0); [lia|]. apply lookup_lt_is_Some.
  unfold Onboarding.questions_length in Hi. lia.
Qed.

Section UiClaims.
Import Onboarding.
Variables (st : state).
Hypothesis Hst : ui_reachable st.

(** Under the invariant the selection of a question that is neither
    single-select nor free text is an array. *)
Lemma ui_selection (q : question_def) :
  q ∈ questions → singleSelect q = false → isText q = false →
  ∃ l, selection st (key q) = JArr l ∧ NoDup l ∧ l ⊆ default [] (options q).
Proof.
  intros Hin Hs Ht. destruct (ui_reachable_inv st Hst) as (Ha & _).
  unfold selection. destruct (answers st !! key q) as [w|] eqn:Hw.
  - destruct (Ha _ _ Hw) as (q' & Hin' & Hk & Hok).
    apply (key_inj q' q Hin' Hin) in Hk as ->.
    unfold answer_ok in Hok. rewrite Hs, Ht in Hok.
    destruct Hok as (l & -> & ? & ?). by exists l.
  - exists []. split_and!; [done|constructor|apply list_subseteq_nil].
Qed.

(** X14. In every state a user can reach through the view, each stored
    answer has the shape its question writes: one of the question's
    options for the single-select question, a string for the free-text
    question, and otherwise an array, without repetition, of options of
    the question; and nothing is stored under any other key. *)
Theorem ui_answers_well_typed (k : string) (v : jsval) :
  answers st !! k = Some v →
  ∃ q, q ∈ questions ∧ key q = k ∧ answer_ok q v.
Proof. destruct (ui_reachable_inv st Hst) as (Ha & _). apply Ha. Qed.

(** X15. In every state a user can reach through the view, the render
    does not throw, and no handler of an event the view offers throws,
    whatever the backend answers. *)
Theorem ui_never_throws :
  is_Some (render st)
  ∧ ∀ o v ev, render st = Some v → offers v ev = true →
              (run o (handler st ev)).2 = Returned tt.
Proof.
  destruct (ui_reachable_inv st Hst) as (Ha & Hi). split.
  - destruct (questions_at_is_Some _ Hi) as [q Hq].
    destruct (questions_at_elem _ _ Hq) as [Hin _].
    unfold render. rewrite Hq. simpl.
    destruct (isText q) eqn:Ht; simpl; [by eexists|].
    destruct (proj2 (question_shape q Hin) Ht) as [opts Hopts]. rewrite Hopts. simpl.
    assert (is_Some (mapM (λ opt, c ← checked st q opt; Some (opt, c)) opts))
      as [boxes ->]; [|by eexists].
    apply mapM_is_Some, Forall_forall. intros x _. simpl.
    assert (is_Some (checked st q x)) as [c ->]; [|by eexists].
    unfold checked. destruct (singleSelect q) eqn:Hs; [by eexists|].
    destruct (ui_selection q Hin Hs Ht) as (l & Hsel & _).
    unfold selection in Hsel. rewrite Hsel. by eexists.
  - intros o v ev Hr Ho. destruct ev as [x|value| |]; simpl.
    + destruct (offers_toggleOption st v x Hr Ho) as (q & opts & Hq & Ht & Hopts & Hx).
      destruct (questions_at_elem _ _ Hq) as [Hin _].
      unfold handleOptionToggle. rewrite Hq.
      destruct (singleSelect q) eqn:Hs; [simpl; returns|]. rewrite Ht.
      destruct (ui_selection q Hin Hs Ht) as (l & Hsel & _).
      unfold selection in Hsel. simpl. rewrite Hsel. simpl. returns.
    + destruct (offers_setText st v value Hr Ho) as (q & Hq & Ht).
      unfold handleTextInput. rewrite Hq. simpl. returns.
    + unfold next_control. destruct (_ <? _); [simpl; returns|].
      destruct (loading st); [done|]. by rewrite run_handleSubmit.
    + unfold previous_control. destruct (0 <? _); simpl; returns.
Qed.
End UiClaims.

(** X16. The record a user can get submitted has, for every question, a
    value of the shape that question writes, or the empty string: the
    three multi-select fields are arrays, without repetition, of options
    of their question; daily_time is one of its options or empty;
    specific_goals is a string. *)
Theorem submitted_record_well_typed (st : Onboarding.state) (u : user)
    (q : Onboarding.question_def) :
  Onboarding.ui_reachable st →
  q ∈ Onboarding.questions →
  ∃ v, row_get (Onboarding.response_row u (Onboarding.answers st)) (Onboarding.key q)
       = Some v
       ∧ (Onboarding.answer_ok q v ∨ v = JStr "").
Proof.
  intros Hst Hin. destruct (ui_reachable_inv st Hst) as (Ha & _).
  assert (∀ d, (Onboarding.answer_ok q d ∨ d = JStr "") →
               Onboarding.answer_ok q (js_or (Onboarding.answers st !! Onboarding.key q) d)
               ∨ js_or (Onboarding.answers st !! Onboarding.key q) d = JStr "") as Hor.
  { intros d Hd. destruct (Onboarding.answers st !! Onboarding.key q) as [w|] eqn:Hw;
      [|done].
    destruct (Ha _ _ Hw) as (q' & Hin' & Hk & Hok).
    apply (key_inj q' q Hin' Hin) in Hk as ->.
    unfold js_or. by destruct (truthy (Some w)); [left|]. }
  revert Hin Hor. unfold Onboarding.questions.
  rewrite !elem_of_cons, !elem_of_nil. intros Hin.
  repeat (destruct Hin as [->|Hin];
          [intros Hor; eexists; split; [reflexivity|]; apply Hor|]); [..|done].
  - left. exists []. split_and!; [done|constructor|apply list_subseteq_nil].
  - left. exists []. split_and!; [done|constructor|apply list_subseteq_nil].
  - left. exists []. split_and!; [done|constructor|apply list_subseteq_nil].
  - by right.
  - by right.
Qed.

Section OnboardingView.
Import Onboarding.
Variables (o : oracle) (st : state).

(** X17. The view of a single-select question never shows two checked
    boxes, whatever is stored: where the options of the question are
    pairwise different, at most one box is checked. *)
Theorem single_select_one_box (q : question_def) (v : view)
    (boxes : list (string * bool)) :
  questions_at (currentQuestion st) = Some q →
  singleSelect q = true →
  render st = Some v →
  body v = OptionBoxes boxes →
  (length (filter (λ b, b.2 = true) boxes) ≤ 1)%nat.
Proof.
  intros Hq Hs (q' & Hq' & _ & _ & Hb)%render_Some Hbody.
  rewrite Hq in Hq'. injection Hq' as <-.
  destruct (questions_at_elem _ _ Hq) as [Hin _].
  assert (isText q = false ∧ ∀ opts, options q = Some opts → NoDup opts) as [Ht Hnd].
  { revert Hin Hs. clear. unfold questions. rewrite !elem_of_cons, !elem_of_nil.
    intros Hin. repeat (destruct Hin as [->|Hin]; [try done|]); [|done].
    intros _. split; [done|]. intros opts [= <-]. by apply (bool_decide_unpack _). }
  rewrite Ht in Hb. destruct Hb as (opts & boxes' & Hopts & Hb' & Hfst & Hck).
  rewrite Hbody in Hb'. injection Hb' as <-.
  specialize (Hnd _ Hopts). rewrite <- Hfst in Hnd. clear Hfst Hbody Hopts.
  assert (∀ b, b ∈ filter (λ b : string * bool, b.2 = true) boxes →
               answers st !! key q = Some (JStr b.1)) as Hall.
  { intros b [Hb2 Hb]%list_elem_of_filter.
    rewrite Forall_forall in Hck. specialize (Hck b Hb).
    unfold checked in Hck. rewrite Hs, Hb2 in Hck.
    injection Hck as Hck. by apply bool_decide_eq_true in Hck. }
  assert (NoDup (filter (λ b : string * bool, b.2 = true) boxes).*1) as Hnd'.
  { clear -Hnd. induction boxes as [|b boxes IH]; [constructor|].
    simpl in Hnd. apply NoDup_cons in Hnd as [Hb Hnd].
    rewrite filter_cons. case_decide; [|by apply IH].
    simpl. apply NoDup_cons. split; [|by apply IH].
    intros Hin. apply Hb. apply list_elem_of_fmap in Hin as (b' & -> & Hb').
    apply list_elem_of_filter in Hb' as [_ Hb']. apply list_elem_of_fmap. by exists b'. }
  destruct (filter _ boxes) as [|b1 [|b2 rest]]; simpl; [lia..|].
  exfalso. pose proof (Hall b1 ltac:(by left)) as H1.
  pose proof (Hall b2 ltac:(right; by left)) as H2.
  rewrite H1 in H2. injection H2 as H2. simpl in Hnd'.
  apply NoDup_cons in Hnd' as [Hb1 _]. apply Hb1. rewrite H2. by left.
Qed.
End OnboardingView.

Lemma js_or_empty_string (a : option jsval) (value : string) :
  a = Some (JStr value) → js_or a (JStr "") = JStr value.
Proof.
  intros ->. unfold js_or, truthy.
  destruct (String.eqb_spec value ""); simpl; congruence.
Qed.

Section OnboardingRoundTrips.
Import Onboarding.
Variables (o : oracle) (st : state) (u : user).

(** X18. What was toggled is what gets saved. After any toggles on a
    multi-select question with no answers before, and whatever navigation
    follows (any state with the same answers), a submission with a session
    user inserts a record whose field for that question is the array,
    without repetition, of the options toggled an odd number of times. *)
Theorem submit_persists_toggles (o' : oracle) (i : Z) (q : question_def)
    (opts : list string) :
  questions_at i = Some q →
  multiSelect q →
  answers st = answers (toggles o (State i ∅ false) opts) →
  o' GetUser = Some u →
  ∃ l, In (Insert "onboarding_responses" [response_row u (answers st)])
          (trace o' (handleSubmit st))
       ∧ row_get (response_row u (answers st)) (key q) = Some (JArr l)
       ∧ NoDup l
       ∧ ∀ x, x ∈ l ↔ Nat.odd (count_occ string_dec opts x) = true.
Proof.
  intros Hq (_ & Hs & Ht) Ha Hu.
  destruct (toggles_multi o (State i ∅ false) q opts Hq Hs Ht)
    as (l & Hl & _ & _ & Hnd & Hodd); [done|].
  exists l. split_and!; [| |done..].
  - unfold trace. rewrite run_handleSubmit, Hu. simpl. right. right. by left.
  - rewrite Ha. unfold selection in Hl. rewrite <- Hl.
    destruct (questions_at_elem _ _ Hq) as [Hin _]. revert Hin Hs Ht. clear.
    unfold questions. rewrite !elem_of_cons, !elem_of_nil. intros Hin.
    by repeat (destruct Hin as [->|Hin]; [try done|]).
Qed.

(** X19. Text typed on the free-text question is stored verbatim, the
    empty string too: the text area shows it back, and a submission saves
    it as specific_goals. *)
Theorem text_round_trip (q : question_def) (value : string) :
  questions_at (currentQuestion st) = Some q →
  isText q = true →
  answers (step o st (setText value)) !! key q = Some (JStr value)
  ∧ body <$> render (step o st (setText value)) = Some (TextArea (JStr value))
  ∧ row_get (response_row u (answers (step o st (setText value)))) "specific_goals"
    = Some (JStr value).
Proof.
  intros Hq Ht. rewrite (step_setText o st q value Hq).
  destruct (questions_at_elem _ _ Hq) as [Hin _].
  assert (key q = "specific_goals") as Hk.
  { revert Hin Ht. clear. unfold questions. rewrite !elem_of_cons, !elem_of_nil.
    intros Hin. by repeat (destruct Hin as [->|Hin]; [try done|]). }
  split_and!; simpl.
  - apply lookup_insert_eq.
  - unfold render. simpl. rewrite Hq. simpl. rewrite Ht. simpl.
    by rewrite (js_or_empty_string _ value) by apply lookup_insert_eq.
  - rewrite Hk. f_equal. apply js_or_empty_string, lookup_insert_eq.
Qed.
End OnboardingRoundTrips.

(** ** The further properties on some inputs *)

Lemma sign_in_rejected_witness :
  run (with_sign_in (Some (Error (Some "Invalid login credentials"))) silent)
    (Auth.handleAuth (Auth.FormData "ada@example.org" "pw" None None None) true)
  = ([SetLoading true;
      SignInWithPassword "ada@example.org" "pw";
      ConsoleError "Auth error:" (Error (Some "Invalid login credentials"));
      Toast {| title := "Error"; description := Some "Invalid login credentials";
               variant_ := Some destructive |};
      SetLoading false], Returned tt).
Proof.
  apply (sign_in_rejected
           (with_sign_in (Some (Error (Some "Invalid login credentials"))) silent)
           (Auth.FormData "ada@example.org" "pw" None None None)
           (Error (Some "Invalid login credentials"))).
  reflexivity.
Defined.

Lemma sign_up_insert_failure_witness :
  Auth.already_registered (Error (Some "Key (user_id) already exists")) = true
  ∧ run (with_insert (Some (Error (Some "Key (user_id) already exists")))
           (with_sign_up (SignupResult (Some (User "u1")) None) silent))
      (Auth.handleAuth (Auth.FormData "ada@example.org" "pw" None None None) false)
    = ([SetLoading true;
        SignUp "ada@example.org" "pw" None None;
        Sleep 2000;
        NowISOString;
        Insert "onboarding_status"
          [[("user_id", JStr "u1"); ("is_completed", JBool false);
            ("created_at", JStr "2026-01-01T00:00:00.000Z")]];
        ConsoleError "Error creating onboarding status:"
          (Error (Some "Key (user_id) already exists"));
        ConsoleError "Auth error:" (Error (Some "Failed to initialize onboarding"));
        Toast {| title := "Error";
                 description := Some "Failed to initialize onboarding";
                 variant_ := Some destructive |};
        SetLoading false], Returned tt).
Proof.
  split; [reflexivity|].
  apply (sign_up_insert_failure
           (with_insert (Some (Error (Some "Key (user_id) already exists")))
              (with_sign_up (SignupResult (Some (User "u1")) None) silent))
           (Auth.FormData "ada@example.org" "pw" None None None)
           (User "u1") (Error (Some "Key (user_id) already exists")));
    reflexivity.
Defined.

Lemma sign_up_other_error_witness :
  run (with_sign_up (SignupResult None (Some (Error None))) silent)
    (Auth.handleAuth (Auth.FormData "ada@example.org" "pw" None None None) false)
  = ([SetLoading true;
      SignUp "ada@example.org" "pw" None None;
      ConsoleError "Auth error:" (Error None);
      Toast {| title := "Error";
               description := Some "An error occurred during authentication";
               variant_ := Some destructive |};
      SetLoading false], Returned tt).
Proof.
  apply (sign_up_other_error
           (with_sign_up (SignupResult None (Some (Error None))) silent)
           (Auth.FormData "ada@example.org" "pw" None None None) (Error None));
    reflexivity.
Defined.

Lemma single_select_last_wins_witness :
  Onboarding.answers
    (Onboarding.toggles silent (Onboarding.State 3 ∅ false)
       (["1 hour"; "2+ hours"] ++ ["1 hour"])) !! "daily_time"
  = Some (JStr "1 hour").
Proof.
  apply (single_select_last_wins silent (Onboarding.State 3 ∅ false)
            {| Onboarding.question := "How much time can you dedicate to learning daily?";
               Onboarding.options := Some ["Less than 30 minutes"; "1 hour"; "2+ hours"];
               Onboarding.key := "daily_time";
               Onboarding.singleSelect := true;
               Onboarding.isOptional := false;
               Onboarding.isText := false |}
            ["1 hour"; "2+ hours"] "1 hour"); reflexivity.
Defined.

Lemma toggle_twice_witness :
  Onboarding.selection
    (Onboarding.step silent
       (Onboarding.step silent
          (Onboarding.State 0 {[ "learning_goals" := JArr ["Personal growth"; "Improving skills"] ]}
             false)
          (Onboarding.toggleOption "Personal growth"))
       (Onboarding.toggleOption "Personal growth")) "learning_goals"
  = JArr ["Improving skills"; "Personal growth"].
Proof.
  refine (proj1 (toggle_twice silent
                   (Onboarding.State 0
                      {[ "learning_goals" := JArr ["Personal growth"; "Improving skills"] ]}
                      false)
                   silent
            {| Onboarding.question := "What are your primary learning goals?";
               Onboarding.options := Some ["Improving skills"; "Preparing for exams";
                                           "Exploring a new field"; "Personal growth"];
               Onboarding.key := "learning_goals";
               Onboarding.singleSelect := false;
               Onboarding.isOptional := false;
               Onboarding.isText := false |}
                   "Personal growth" ["Personal growth"; "Improving skills"]
                   eq_refl eq_refl eq_refl _)).
  vm_compute. reflexivity.
Defined.

Lemma toggles_keep_click_order_witness :
  NoDup ["Reading"; "Video tutorials"]
  ∧ Onboarding.selection
      (Onboarding.toggles silent (Onboarding.State 2 ∅ false) ["Reading"; "Video tutorials"])
      "learning_style"
    = JArr ["Reading"; "Video tutorials"].
Proof.
  split; [by apply (bool_decide_unpack _)|].
  apply (toggles_keep_click_order silent (Onboarding.State 2 ∅ false)
            {| Onboarding.question := "What is your preferred learning style?";
               Onboarding.options := Some ["Video tutorials"; "Interactive quizzes"; "Reading";
                                           "Peer-to-peer learning"];
               Onboarding.key := "learning_style";
               Onboarding.singleSelect := false;
               Onboarding.isOptional := false;
               Onboarding.isText := false |});
    [reflexivity..|by apply (bool_decide_unpack _)].
Defined.

Lemma navigation_round_trip_witness :
  Onboarding.step silent (Onboarding.step silent (Onboarding.State 1 ∅ false)
                            Onboarding.advance) Onboarding.retreat
  = Onboarding.State 1 ∅ false.
Proof.
  apply (proj1 (navigation_round_trip silent (Onboarding.State 1 ∅ false) silent)).
  by vm_compute.
Defined.

Lemma ui_answers_well_typed_witness :
  Onboarding.ui_reachable
    (Onboarding.ui
       (Onboarding.ui_async_session Onboarding.start
          [(silent, Onboarding.by_user (Onboarding.toggleOption "Personal growth"))]))
  ∧ ∃ q, q ∈ Onboarding.questions ∧ Onboarding.key q = "learning_goals"
         ∧ Onboarding.answer_ok q (JArr ["Personal growth"]).
Proof.
  split; [by eexists|].
  apply (ui_answers_well_typed
           (Onboarding.ui
              (Onboarding.ui_async_session Onboarding.start
                 [(silent, Onboarding.by_user (Onboarding.toggleOption "Personal growth"))]))).
  - by eexists.
  - vm_compute. reflexivity.
Defined.

(** On the last question, with a submission in flight. *)
Lemma ui_never_throws_witness :
  Onboarding.ui_reachable
    (Onboarding.ui
       (Onboarding.ui_async_session Onboarding.start
          [(silent, Onboarding.by_user Onboarding.advance);
           (silent, Onboarding.by_user Onboarding.advance);
           (silent, Onboarding.by_user Onboarding.advance);
           (silent, Onboarding.by_user Onboarding.advance);
           (silent, Onboarding.by_user Onboarding.advance)]))
  ∧ Onboarding.loading
      (Onboarding.ui
         (Onboarding.ui_async_session Onboarding.start
            [(silent, Onboarding.by_user Onboarding.advance);
             (silent, Onboarding.by_user Onboarding.advance);
             (silent, Onboarding.by_user Onboarding.advance);
             (silent, Onboarding.by_user Onboarding.advance);
             (silent, Onboarding.by_user Onboarding.advance)])) = true
  ∧ is_Some (Onboarding.render
               (Onboarding.ui
                  (Onboarding.ui_async_session Onboarding.start
                     [(silent, Onboarding.by_user Onboarding.advance);
                      (silent, Onboarding.by_user Onboarding.advance);
                      (silent, Onboarding.by_user Onboarding.advance);
                      (silent, Onboarding.by_user Onboarding.advance);
                      (silent, Onboarding.by_user Onboarding.advance)]))).
Proof.
  split_and!; [by eexists|by vm_compute|].
  apply (ui_never_throws
           (Onboarding.ui
              (Onboarding.ui_async_session Onboarding.start
                 [(silent, Onboarding.by_user Onboarding.advance);
                  (silent, Onboarding.by_user Onboarding.advance);
                  (silent, Onboarding.by_user Onboarding.advance);
                  (silent, Onboarding.by_user Onboarding.advance);
                  (silent, Onboarding.by_user Onboarding.advance)]))).
  by eexists.
Defined.

Lemma submitted_record_well_typed_witness :
  Onboarding.ui_reachable
    (Onboarding.ui
       (Onboarding.ui_async_session Onboarding.start
          [(silent, Onboarding.by_user (Onboarding.toggleOption "Personal growth"))]))
  ∧ ∃ v, row_get
           (Onboarding.response_row (User "u1")
              (Onboarding.answers
                 (Onboarding.ui
                    (Onboarding.ui_async_session Onboarding.start
                       [(silent,
                         Onboarding.by_user (Onboarding.toggleOption "Personal growth"))]))))
           "daily_time" = Some v
         ∧ (Onboarding.answer_ok
              {| Onboarding.question := "How much time can you dedicate to learning daily?";
                 Onboarding.options := Some ["Less than 30 minutes"; "1 hour"; "2+ hours"];
                 Onboarding.key := "daily_time";
                 Onboarding.singleSelect := true;
                 Onboarding.isOptional := false;
                 Onboarding.isText := false |} v
            ∨ v = JStr "").
Proof.
  split; [by eexists|].
  apply (submitted_record_well_typed
           (Onboarding.ui
              (Onboarding.ui_async_session Onboarding.start
                 [(silent, Onboarding.by_user (Onboarding.toggleOption "Personal growth"))]))
           (User "u1")
           {| Onboarding.question := "How much time can you dedicate to learning daily?";
              Onboarding.options := Some ["Less than 30 minutes"; "1 hour"; "2+ hours"];
              Onboarding.key := "daily_time";
              Onboarding.singleSelect := true;
              Onboarding.isOptional := false;
              Onboarding.isText := false |}).
  - by eexists.
  - do 3 right. by left.
Defined.

Lemma single_select_one_box_witness :
  (length (filter (λ b : string * bool, b.2 = true)
             [("Less than 30 minutes", false); ("1 hour", true); ("2+ hours", false)])
   ≤ 1)%nat.
Proof.
  apply (single_select_one_box
           (Onboarding.State 3 {[ "daily_time" := JStr "1 hour" ]} false)
            {| Onboarding.question := "How much time can you dedicate to learning daily?";
               Onboarding.options := Some ["Less than 30 minutes"; "1 hour"; "2+ hours"];
               Onboarding.key := "daily_time";
               Onboarding.singleSelect := true;
               Onboarding.isOptional := false;
               Onboarding.isText := false |}
           {| Onboarding.heading := (4, 5);
              Onboarding.prompt := "How much time can you dedicate to learning daily?";
              Onboarding.body :=
                Onboarding.OptionBoxes
                  [("Less than 30 minutes", false); ("1 hour", true); ("2+ hours", false)];
              Onboarding.previous := true;
              Onboarding.right_ := Onboarding.NextButton |});
    reflexivity.
Defined.

Lemma submit_persists_toggles_witness :
  ∃ l, In (Insert "onboarding_responses"
             [Onboarding.response_row (User "u1")
                (Onboarding.answers
                   (Onboarding.toggles silent (Onboarding.State 1 ∅ false)
                      ["Technical: Coding"; "Non-Technical: Design"; "Technical: Coding"]))])
          (trace (with_user (User "u1") silent)
             (Onboarding.handleSubmit
                (Onboarding.State 4
                   (Onboarding.answers
                      (Onboarding.toggles silent (Onboarding.State 1 ∅ false)
                         ["Technical: Coding"; "Non-Technical: Design"; "Technical: Coding"]))
                   false)))
       ∧ row_get
           (Onboarding.response_row (User "u1")
              (Onboarding.answers
                 (Onboarding.toggles silent (Onboarding.State 1 ∅ false)
                    ["Technical: Coding"; "Non-Technical: Design"; "Technical: Coding"])))
           "domain_interests" = Some (JArr l)
       ∧ NoDup l
       ∧ ∀ x, x ∈ l
           ↔ Nat.odd (count_occ string_dec
                        ["Technical: Coding"; "Non-Technical: Design"; "Technical: Coding"] x)
             = true.
Proof.
  apply (submit_persists_toggles silent
            (Onboarding.State 4
               (Onboarding.answers
                  (Onboarding.toggles silent (Onboarding.State 1 ∅ false)
                     ["Technical: Coding"; "Non-Technical: Design"; "Technical: Coding"]))
               false)
            (User "u1") (with_user (User "u1") silent) 1
            {| Onboarding.question := "Which domain are you most interested in?";
               Onboarding.options :=
                 Some ["Technical: Coding"; "Technical: AI/ML";
                       "Technical: Cybersecurity"; "Non-Technical: Marketing";
                       "Non-Technical: Content Writing";
                       "Non-Technical: Management"; "Non-Technical: Design"];
               Onboarding.key := "domain_interests";
               Onboarding.singleSelect := false;
               Onboarding.isOptional := false;
               Onboarding.isText := false |});
    [reflexivity|split; [by eexists|by split]|reflexivity|reflexivity].
Defined.

Lemma text_round_trip_witness :
  Onboarding.answers
    (Onboarding.step silent (Onboarding.State 4 {[ "specific_goals" := JStr "AWS" ]} false)
       (Onboarding.setText "")) !! "specific_goals"
  = Some (JStr "").
Proof.
  apply (text_round_trip silent
           (Onboarding.State 4 {[ "specific_goals" := JStr "AWS" ]} false)
           (User "u1")
            {| Onboarding.question :=
                 "Are you preparing for any specific certification, exam, or career goal?";
               Onboarding.options := None;
               Onboarding.key := "specific_goals";
               Onboarding.singleSelect := false;
               Onboarding.isOptional := true;
               Onboarding.isText := true |}
           ""); reflexivity.
Defined.
